(** * Place enrichment cache of myndy-location

    A shallow embedding of [core/analysis/enrichment.py]: the
    [PlaceEnrichment] record, the JSON cache file, the proximity scan over
    the cache, the rate-limited reverse geocoding call and the place-type
    classifier. Further down: the enricher's caller in
    [scripts/enrich_places.py], the batched copy of
    [scripts/migrate_from_myndy_ai.py] and the route tables of the places
    and visits routers.

    Conventions of the embedding.
    - Python values that come out of JSON (the provider's response, the
      cache file) are values of [pyval]; a Python [dict] is an association
      list in insertion order, which is the order [dict.items()] enumerates.
    - A Python [str] is the [string] of its UTF-8 bytes; [str.isdigit]
      decodes them and looks the characters up in the table of digits.
    - A Python exception is the [Err] case of [result]; [try/except] is a
      match on it.
    - Wall-clock time is a rational number of seconds ([Q]); the clock
      advances in [time.sleep] and while the provider answers.
    - Python floats used as coordinates, their formatting and parsing, and
      geopy's geodesic distance are the operations of the interface
      [PyFloat]; the code is embedded over any implementation of it.
    - [json.dump] followed by [json.load] is the identity on JSON values:
      the cache file is modelled by the document it holds. *)

From Stdlib Require Import String Ascii List ZArith QArith Bool Lia Lqa.
From Stdlib Require Import DecimalString Qabs.
Import ListNotations.
Local Open Scope string_scope.

Set Implicit Arguments.

(** ** Exceptions *)

Inductive exn : Type :=
| AttributeError
| KeyError
| TypeError
| ValueError.

Inductive result (A : Type) : Type :=
| Ok (a : A)
| Err (e : exn).

Arguments Ok {A} a.
Arguments Err {A} e.

Definition bind {A B : Type} (r : result A) (k : A -> result B) : result B :=
  match r with
  | Ok a => k a
  | Err e => Err e
  end.

Declare Scope result_scope.
Delimit Scope result_scope with result.
Notation "x <- r ;; k" := (bind r (fun x => k))
  (at level 61, r at next level, right associativity) : result_scope.
Local Open Scope result_scope.

(** ** Dictionaries in insertion order *)

Definition dict (V : Type) : Type := list (string * V).

(** [d.get(k)], [None] when the key is missing. *)
Fixpoint dict_get {V : Type} (k : string) (d : dict V) : option V :=
  match d with
  | [] => None
  | (k', v) :: d' => if String.eqb k k' then Some v else dict_get k d'
  end.

(** [k in d] *)
Definition dict_mem {V : Type} (k : string) (d : dict V) : bool :=
  match dict_get k d with
  | Some _ => true
  | None => false
  end.

(** [d[k]], which raises [KeyError] when the key is missing. *)
Definition dict_index {V : Type} (k : string) (d : dict V) : result V :=
  match dict_get k d with
  | Some v => Ok v
  | None => Err KeyError
  end.

(** [d.get(k, dflt)] *)
Definition dict_get_default {V : Type} (k : string) (dflt : V) (d : dict V) : V :=
  match dict_get k d with
  | Some v => v
  | None => dflt
  end.

(** [d[k] = v]: an existing key keeps its position, a new key goes last. *)
Fixpoint dict_set {V : Type} (k : string) (v : V) (d : dict V) : dict V :=
  match d with
  | [] => [(k, v)]
  | (k', v') :: d' =>
      if String.eqb k k' then (k, v) :: d' else (k', v') :: dict_set k v d'
  end.

Definition dict_keys {V : Type} (d : dict V) : list string := map fst d.

(** A dictionary comprehension [{key: f(key, value) for key, value in d.items()}]. *)
Definition dict_comprehension {V W : Type} (f : string -> V -> W) (d : dict V) : dict W :=
  fold_left (fun acc kv => dict_set (fst kv) (f (fst kv) (snd kv)) acc) d [].

(** The same where [f] may raise: the first exception aborts the comprehension. *)
Fixpoint dict_comprehension_try {V W : Type} (f : string -> V -> result W)
    (d : dict V) (acc : dict W) : result (dict W) :=
  match d with
  | [] => Ok acc
  | (k, v) :: d' =>
      w <- f k v ;;
      dict_comprehension_try f d' (dict_set k w acc)
  end.

(** ** Python values *)

#[local] Unset Elimination Schemes.

Inductive pyval : Type :=
| PNone
| PBool (b : bool)
| PInt (z : Z)
| PFloat (q : Q)
| PStr (s : string)
| PList (l : list pyval)
| PDict (d : list (string * pyval)).

#[local] Set Elimination Schemes.

(** Truth value of an object, as [if x], [not x] and [x or y] test it. *)
Definition truthy (v : pyval) : bool :=
  match v with
  | PNone => false
  | PBool b => b
  | PInt z => negb (z =? 0)%Z
  | PFloat q => negb (Qeq_bool q 0)
  | PStr s => negb (String.eqb s "")
  | PList l => match l with [] => false | _ => true end
  | PDict d => match d with [] => false | _ => true end
  end.

(** [a or b]; [b] is a computation that is only run when [a] is falsy. *)
Definition py_or (a : pyval) (b : result pyval) : result pyval :=
  if truthy a then Ok a else b.

(** [obj.get(k)]: only a dict has the method. *)
Definition py_get (obj : pyval) (k : string) : result pyval :=
  match obj with
  | PDict d => Ok (dict_get_default k PNone d)
  | _ => Err AttributeError
  end.

(** ** Strings *)

(** The code points of a text, [None] when the bytes are no UTF-8. *)
Definition continuation (b : ascii) : option N :=
  let n := N_of_ascii b in
  if ((128 <=? n) && (n <? 192))%N then Some (n - 128)%N else None.

Fixpoint code_points (s : string) : option (list N) :=
  match s with
  | EmptyString => Some []
  | String b0 s0 =>
      let n0 := N_of_ascii b0 in
      if (n0 <? 128)%N then
        option_map (cons n0) (code_points s0)
      else if ((192 <=? n0) && (n0 <? 224))%N then
        match s0 with
        | String b1 s1 =>
            match continuation b1 with
            | Some c1 =>
                let cp := ((n0 - 192) * 64 + c1)%N in
                if (128 <=? cp)%N then option_map (cons cp) (code_points s1)
                else None
            | None => None
            end
        | EmptyString => None
        end
      else if ((224 <=? n0) && (n0 <? 240))%N then
        match s0 with
        | String b1 (String b2 s2) =>
            match continuation b1, continuation b2 with
            | Some c1, Some c2 =>
                let cp := (((n0 - 224) * 64 + c1) * 64 + c2)%N in
                if (2048 <=? cp)%N then option_map (cons cp) (code_points s2)
                else None
            | _, _ => None
            end
        | _ => None
        end
      else if ((240 <=? n0) && (n0 <? 248))%N then
        match s0 with
        | String b1 (String b2 (String b3 s3)) =>
            match continuation b1, continuation b2, continuation b3 with
            | Some c1, Some c2, Some c3 =>
                let cp := ((((n0 - 240) * 64 + c1) * 64 + c2) * 64 + c3)%N in
                if ((65536 <=? cp) && (cp <=? 1114111))%N
                then option_map (cons cp) (code_points s3)
                else None
            | _, _, _ => None
            end
        | _ => None
        end
      else None
  end.

(** The characters for which [str.isdigit] holds, those of numeric type
    Digit or Decimal, as ranges of code points (Unicode 14.0, the table of
    CPython 3.11). *)
Definition digit_ranges : list (N * N) :=
  [(48, 57); (178, 179); (185, 185); (1632, 1641); (1776, 1785);
   (1984, 1993); (2406, 2415); (2534, 2543); (2662, 2671); (2790, 2799);
   (2918, 2927); (3046, 3055); (3174, 3183); (3302, 3311); (3430, 3439);
   (3558, 3567); (3664, 3673); (3792, 3801); (3872, 3881); (4160, 4169);
   (4240, 4249); (4969, 4977); (6112, 6121); (6160, 6169); (6470, 6479);
   (6608, 6618); (6784, 6793); (6800, 6809); (6992, 7001); (7088, 7097);
   (7232, 7241); (7248, 7257); (8304, 8304); (8308, 8313); (8320, 8329);
   (9312, 9320); (9332, 9340); (9352, 9360); (9450, 9450); (9461, 9469);
   (9471, 9471); (10102, 10110); (10112, 10120); (10122, 10130);
   (42528, 42537); (43216, 43225); (43264, 43273); (43472, 43481);
   (43504, 43513); (43600, 43609); (44016, 44025); (65296, 65305);
   (66720, 66729); (68160, 68163); (68912, 68921); (69216, 69224);
   (69714, 69722); (69734, 69743); (69872, 69881); (69942, 69951);
   (70096, 70105); (70384, 70393); (70736, 70745); (70864, 70873);
   (71248, 71257); (71360, 71369); (71472, 71481); (71904, 71913);
   (72016, 72025); (72784, 72793); (73040, 73049); (73120, 73129);
   (92768, 92777); (92864, 92873); (93008, 93017); (120782, 120831);
   (123200, 123209); (123632, 123641); (125264, 125273); (127232, 127242);
   (130032, 130041)]%N.

Definition is_digit (cp : N) : bool :=
  existsb (fun r => ((fst r <=? cp) && (cp <=? snd r))%N) digit_ranges.

(** [s.isdigit()]: at least one character, and all of them digits. *)
Definition str_isdigit (s : string) : bool :=
  match code_points s with
  | Some (c :: cs) => forallb is_digit (c :: cs)
  | _ => false
  end.

(** [s.split(sep)] for a one-character separator: always at least one part. *)
Fixpoint split_char (sep : ascii) (s : string) : list string :=
  match s with
  | EmptyString => [EmptyString]
  | String c s' =>
      if Ascii.eqb c sep then EmptyString :: split_char sep s'
      else match split_char sep s' with
           | [] => [String c EmptyString]
           | p :: ps => String c p :: ps
           end
  end.

(** [s.split(',')] *)
Definition split_comma (s : string) : list string := split_char "," s.

(** [s.split(',')[0]] *)
Definition first_segment (s : string) : string :=
  match split_comma s with
  | [] => EmptyString
  | p :: _ => p
  end.

(** [v.isdigit()] on an arbitrary object. *)
Definition py_isdigit (v : pyval) : result bool :=
  match v with
  | PStr s => Ok (str_isdigit s)
  | _ => Err AttributeError
  end.

(** [v.split(',')[0]] on an arbitrary object. *)
Definition py_first_segment (v : pyval) : result pyval :=
  match v with
  | PStr s => Ok (PStr (first_segment s))
  | _ => Err AttributeError
  end.

(** [data.items()]: only a dict has the method. *)
Definition py_items (v : pyval) : result (dict pyval) :=
  match v with
  | PDict d => Ok d
  | _ => Err AttributeError
  end.

(** [v == s] for a string literal [s]. *)
Definition py_eq_str (v : pyval) (s : string) : bool :=
  match v with
  | PStr t => String.eqb t s
  | _ => false
  end.

(** [v in [s1, s2, ...]] for a list of string literals. *)
Definition py_in_strs (v : pyval) (l : list string) : bool :=
  existsb (py_eq_str v) l.

(** ** The enrichment record *)

(** [@dataclass class PlaceEnrichment]; every field defaults to [None]. *)
Record PlaceEnrichment : Type := {
  name : pyval;
  address : pyval;
  city : pyval;
  state : pyval;
  country : pyval;
  postal_code : pyval;
  place_type : pyval;
  raw_data : pyval
}.

(** [PlaceEnrichment()] *)
Definition PlaceEnrichment_default : PlaceEnrichment :=
  {| name := PNone; address := PNone; city := PNone; state := PNone;
     country := PNone; postal_code := PNone; place_type := PNone;
     raw_data := PNone |}.

Definition field_names : list string :=
  ["name"; "address"; "city"; "state"; "country"; "postal_code";
   "place_type"; "raw_data"].

(** [PlaceEnrichment] called with the entries of [value] as keyword
    arguments: [value] has to be a mapping whose keys are field names; a
    field that is not given takes its default [None]. *)
Definition PlaceEnrichment_kwargs (value : pyval) : result PlaceEnrichment :=
  match value with
  | PDict d =>
      if forallb (fun k => existsb (String.eqb k) field_names) (dict_keys d)
      then Ok {| name := dict_get_default "name" PNone d;
                 address := dict_get_default "address" PNone d;
                 city := dict_get_default "city" PNone d;
                 state := dict_get_default "state" PNone d;
                 country := dict_get_default "country" PNone d;
                 postal_code := dict_get_default "postal_code" PNone d;
                 place_type := dict_get_default "place_type" PNone d;
                 raw_data := dict_get_default "raw_data" PNone d |}
      else Err TypeError
  | _ => Err TypeError
  end.

(** The dict [save_cache] writes for one record. *)
Definition enrichment_to_dict (value : PlaceEnrichment) : pyval :=
  PDict [("name", name value);
         ("address", address value);
         ("city", city value);
         ("state", state value);
         ("country", country value);
         ("postal_code", postal_code value);
         ("place_type", place_type value);
         ("raw_data", raw_data value)].

(** ** Classification and parsing of a provider response *)

(** [PlaceEnricher._classify_place_type] *)
Definition _classify_place_type (address : dict pyval) : result pyval :=
  if dict_mem "amenity" address then
    dict_index "amenity" address
  else if dict_mem "shop" address then
    Ok (PStr "commercial")
  else if dict_mem "building" address then
    building <- dict_index "building" address ;;
    if py_in_strs building ["house"; "residential"; "apartments"]
    then Ok (PStr "residence")
    else Ok (PStr "building")
  else if dict_mem "highway" address then
    Ok (PStr "road")
  else
    Ok (PStr "unknown").

(** geopy's [Location]: the formatted address and the raw response. *)
Record Location : Type := {
  location_address : pyval;
  location_raw : dict pyval
}.

(** The place name of [enrich_place] (source lines 189-199). *)
Definition extract_place_name (raw : dict pyval) (address : pyval) : result pyval :=
  let place_name := dict_get_default "name" (PStr "") raw in
  use_fallback <- (if truthy place_name then py_isdigit place_name else Ok true) ;;
  if (use_fallback : bool) then
    amenity <- py_get address "amenity" ;;
    py_or amenity
      (shop <- py_get address "shop" ;;
       py_or shop
         (building <- py_get address "building" ;;
          py_or building
            (tourism <- py_get address "tourism" ;;
             py_or tourism
               (py_first_segment (dict_get_default "display_name" (PStr "") raw)))))
  else Ok place_name.

(** [address.get('city') or address.get('town') or address.get('village')] *)
Definition extract_city (address : pyval) : result pyval :=
  c <- py_get address "city" ;;
  py_or c
    (t <- py_get address "town" ;;
     py_or t (py_get address "village")).

(** The argument of [_classify_place_type]: [address.get] has succeeded
    before the call, so [address] is a dict there. *)
Definition as_dict (v : pyval) : result (dict pyval) :=
  match v with
  | PDict d => Ok d
  | _ => Err AttributeError
  end.

(** "Parse result" of [enrich_place] (source lines 186-210): builds the
    record out of a location; an exception is left to the caller's [except]. *)
Definition parse_location (location : Location) : result PlaceEnrichment :=
  let raw := location_raw location in
  let addr := dict_get_default "address" (PDict []) raw in
  place_name <- extract_place_name raw addr ;;
  city_v <- extract_city addr ;;
  state_v <- py_get addr "state" ;;
  country_v <- py_get addr "country" ;;
  postcode_v <- py_get addr "postcode" ;;
  addr_d <- as_dict addr ;;
  type_v <- _classify_place_type addr_d ;;
  Ok {| name := place_name;
        address := location_address location;
        city := city_v;
        state := state_v;
        country := country_v;
        postal_code := postcode_v;
        place_type := type_v;
        raw_data := PDict raw |}.

(** ** Floats, the clock, the provider and the cache file *)

(** The operations on Python floats that the enricher uses on coordinates
    and distances. [float_of_str] is [float(s)] and [geodesic_meters p q] is
    [geodesic(p, q).meters]; both raise [ValueError] on bad input. *)
Class PyFloat : Type := {
  float : Type;
  format_4f : float -> string;
  float_str : float -> string;
  float_of_str : string -> result float;
  geodesic_meters : float * float -> float * float -> result float;
  float_le : float -> float -> bool
}.

(** [a < b] on times. *)
Definition Qltb (a b : Q) : bool := (Qnum a * QDen b <? Qnum b * QDen a)%Z.

(** What [self.geocoder.reverse] does: it raises, or it returns a location
    or [None]; either way the call takes [reply_latency] seconds. *)
Inductive outcome : Type :=
| Raises
| Returns (location : option Location).

Record reply : Type := {
  reply_outcome : outcome;
  reply_latency : Q
}.

(** What the enricher does to the outside, oldest first: a [time.sleep], a
    request to the provider (with the clock reading when it is issued), a
    completed write of the cache file. *)
Inductive event : Type :=
| EvSleep (seconds : Q)
| EvReverse (issued_at : Q) (query : string)
| EvSave.

(** The cache file: absent, present but not JSON, or a JSON document. *)
Inductive file : Type :=
| Absent
| Unreadable
| Document (data : pyval).

(** What becomes of a write of the cache file: it completes; or it fails
    before the file is opened ([mkdir] or [open] raises), which leaves the
    file alone; or it fails after [open(..., 'w')] has emptied the file
    (the dump or the closing flush raises), which leaves a file that is no
    JSON. *)
Inductive write_outcome : Type :=
| Completes
| FailsBeforeOpen
| FailsAfterOpen.

Section Enricher.

Context {F : PyFloat}.

(** The [PlaceEnricher] object ([cache], [cache_radius],
    [last_request_time], [min_request_interval]) together with what it
    acts on: the clock, the cache file, what the file system makes of a
    write, the provider (its answer may depend on the earlier requests) and
    the log of events. *)
Record World : Type := {
  cache : dict PlaceEnrichment;
  cache_radius : float;
  last_request_time : Q;
  min_request_interval : Q;
  clock : Q;
  cache_file : file;
  fs_write : write_outcome;
  geocoder : list string -> string -> reply;
  events : list event
}.

(** Whether a write of the cache file completes. *)
Definition fs_writable (w : World) : bool :=
  match fs_write w with
  | Completes => true
  | FailsBeforeOpen => false
  | FailsAfterOpen => false
  end.

Definition set_cache (c : dict PlaceEnrichment) (w : World) : World :=
  {| cache := c; cache_radius := cache_radius w;
     last_request_time := last_request_time w;
     min_request_interval := min_request_interval w;
     clock := clock w; cache_file := cache_file w;
     fs_write := fs_write w; geocoder := geocoder w;
     events := events w |}.

Definition set_last_request_time (t : Q) (w : World) : World :=
  {| cache := cache w; cache_radius := cache_radius w;
     last_request_time := t;
     min_request_interval := min_request_interval w;
     clock := clock w; cache_file := cache_file w;
     fs_write := fs_write w; geocoder := geocoder w;
     events := events w |}.

Definition set_clock (t : Q) (w : World) : World :=
  {| cache := cache w; cache_radius := cache_radius w;
     last_request_time := last_request_time w;
     min_request_interval := min_request_interval w;
     clock := t; cache_file := cache_file w;
     fs_write := fs_write w; geocoder := geocoder w;
     events := events w |}.

Definition set_cache_file (f : file) (w : World) : World :=
  {| cache := cache w; cache_radius := cache_radius w;
     last_request_time := last_request_time w;
     min_request_interval := min_request_interval w;
     clock := clock w; cache_file := f;
     fs_write := fs_write w; geocoder := geocoder w;
     events := events w |}.

Definition log_event (e : event) (w : World) : World :=
  {| cache := cache w; cache_radius := cache_radius w;
     last_request_time := last_request_time w;
     min_request_interval := min_request_interval w;
     clock := clock w; cache_file := cache_file w;
     fs_write := fs_write w; geocoder := geocoder w;
     events := events w ++ [e] |}.

(** The queries sent to the provider so far, oldest first. *)
Fixpoint requests_of (l : list event) : list string :=
  match l with
  | [] => []
  | EvReverse _ q :: l' => q :: requests_of l'
  | _ :: l' => requests_of l'
  end.

(** The clock readings at which the requests were issued, oldest first. *)
Fixpoint issue_times (l : list event) : list Q :=
  match l with
  | [] => []
  | EvReverse t _ :: l' => t :: issue_times l'
  | _ :: l' => issue_times l'
  end.

(** How often the cache file was written. *)
Fixpoint save_count (l : list event) : nat :=
  match l with
  | [] => 0
  | EvSave :: l' => S (save_count l')
  | _ :: l' => save_count l'
  end.

(** [time.sleep(seconds)] *)
Definition time_sleep (seconds : Q) (w : World) : World :=
  log_event (EvSleep seconds) (set_clock (clock w + seconds) w).

(** The caller lets [seconds] pass between two calls. *)
Definition idle (seconds : Q) (w : World) : World :=
  set_clock (clock w + seconds) w.

(** [self.geocoder.reverse(query, timeout=10)] *)
Definition geocoder_reverse (query : string) (w : World) : outcome * World :=
  let r := geocoder w (requests_of (events w)) query in
  let w1 := log_event (EvReverse (clock w) query) w in
  (reply_outcome r, set_clock (clock w + reply_latency r) w1).

(** ** Loading and saving the cache *)

(** The body of the [try] of [load_cache]. *)
Definition read_cache (data : pyval) : result (dict PlaceEnrichment) :=
  items <- py_items data ;;
  dict_comprehension_try (fun _ value => PlaceEnrichment_kwargs value) items [].

(** [PlaceEnricher.load_cache] *)
Definition load_cache (w : World) : World :=
  match cache_file w with
  | Document data =>
      match read_cache data with
      | Ok c => set_cache c w
      | Err _ => set_cache [] w
      end
  | Unreadable => set_cache [] w
  | Absent => set_cache [] w
  end.

(** The document [save_cache] dumps. *)
Definition cache_document (c : dict PlaceEnrichment) : pyval :=
  PDict (dict_comprehension (fun _ value => enrichment_to_dict value) c).

(** [PlaceEnricher.save_cache]: a failing write is logged and swallowed;
    what it leaves of the file depends on where it fails. *)
Definition save_cache (w : World) : World :=
  match fs_write w with
  | Completes =>
      log_event EvSave (set_cache_file (Document (cache_document (cache w))) w)
  | FailsBeforeOpen => w
  | FailsAfterOpen => set_cache_file Unreadable w
  end.

(** [PlaceEnricher.__init__] with the given radius, in the given surroundings. *)
Definition PlaceEnricher_init (radius : float) (now : Q) (f : file)
    (writes : write_outcome) (service : list string -> string -> reply) : World :=
  load_cache
    {| cache := []; cache_radius := radius;
       last_request_time := 0; min_request_interval := 1;
       clock := now; cache_file := f; fs_write := writes;
       geocoder := service; events := [] |}.

(** ** Keys and the proximity scan *)

(** [PlaceEnricher._get_cache_key] *)
Definition _get_cache_key (latitude longitude : float) : string :=
  format_4f latitude ++ "," ++ format_4f longitude.

(** [cache_lat, cache_lng = map(float, parts)]: the two targets take the
    first two parts; a missing part, a part that is no float and a third
    part all raise. *)
Definition unpack_two_floats (parts : list string) : result (float * float) :=
  match parts with
  | [] => Err ValueError
  | p1 :: rest1 =>
      a <- float_of_str p1 ;;
      match rest1 with
      | [] => Err ValueError
      | p2 :: rest2 =>
          b <- float_of_str p2 ;;
          match rest2 with
          | [] => Ok (a, b)
          | p3 :: _ => _ <- float_of_str p3 ;; Err ValueError
          end
      end
  end.

(** The body of the [try] in the loop of [_find_cached_nearby]: whether
    the entry under [cache_key] is within [radius]. *)
Definition within_cache_radius (latitude longitude radius : float)
    (cache_key : string) : result bool :=
  c <- unpack_two_floats (split_comma cache_key) ;;
  distance <- geodesic_meters (latitude, longitude) (fst c, snd c) ;;
  Ok (float_le distance radius).

(** The loop of [_find_cached_nearby] over [self.cache.items()]. *)
Fixpoint find_cached_nearby_in (latitude longitude radius : float)
    (items : dict PlaceEnrichment) : option PlaceEnrichment :=
  match items with
  | [] => None
  | (cache_key, enrichment) :: rest =>
      match within_cache_radius latitude longitude radius cache_key with
      | Ok true => Some enrichment
      | Ok false => find_cached_nearby_in latitude longitude radius rest
      | Err _ => find_cached_nearby_in latitude longitude radius rest
      end
  end.

(** [PlaceEnricher._find_cached_nearby] *)
Definition _find_cached_nearby (latitude longitude : float) (w : World)
    : option PlaceEnrichment :=
  find_cached_nearby_in latitude longitude (cache_radius w) (cache w).

(** ** The orchestrator *)

(** "Rate limiting" of [enrich_place] (source lines 169-174). *)
Definition rate_limit (w : World) : World :=
  let time_since_last := clock w - last_request_time w in
  if Qltb time_since_last (min_request_interval w)
  then time_sleep (min_request_interval w - time_since_last) w
  else w.

(** "Make API call" of [enrich_place] (source lines 176-221). *)
Definition geocode_and_cache (latitude longitude : float) (cache_key : string)
    (w : World) : option PlaceEnrichment * World :=
  let query := float_str latitude ++ ", " ++ float_str longitude in
  let (o, w1) := geocoder_reverse query w in
  match o with
  | Raises => (None, w1)
  | Returns location =>
      let w2 := set_last_request_time (clock w1) w1 in
      match location with
      | None => (None, w2)
      | Some loc =>
          match parse_location loc with
          | Err _ => (None, w2)
          | Ok enrichment =>
              (Some enrichment,
               save_cache (set_cache (dict_set cache_key enrichment (cache w2)) w2))
          end
      end
  end.

(** [PlaceEnricher.enrich_place] *)
Definition enrich_place (latitude longitude : float) (force : bool) (w : World)
    : option PlaceEnrichment * World :=
  let cache_key := _get_cache_key latitude longitude in
  let call_provider :=
    geocode_and_cache latitude longitude cache_key (rate_limit w) in
  if force then call_provider
  else
    match dict_get cache_key (cache w) with
    | Some hit => (Some hit, w)
    | None =>
        match _find_cached_nearby latitude longitude w with
        | Some nearby =>
            (Some nearby, set_cache (dict_set cache_key nearby (cache w)) w)
        | None => call_provider
        end
    end.

(** Whether a call gets as far as the provider. *)
Definition reaches_provider (latitude longitude : float) (force : bool)
    (w : World) : bool :=
  force ||
  (negb (dict_mem (_get_cache_key latitude longitude) (cache w)) &&
   match _find_cached_nearby latitude longitude w with
   | Some _ => false
   | None => true
   end).

(** The provider's answer to the request this call would send. *)
Definition provider_reply (latitude longitude : float) (w : World) : reply :=
  geocoder w (requests_of (events w))
    (float_str latitude ++ ", " ++ float_str longitude).

End Enricher.

Arguments World F : clear implicits.

(** ** A decimal implementation of the float interface

    Used to run the embedding on concrete coordinates. Floats are
    rationals; [format_4f] rounds half to even and prints four decimals
    like Python's [.4f]; [float(s)] reads plain decimal literals; the
    distance is a stand-in for geopy's geodesic: 111195 m per degree
    along the grid, and [ValueError] for a latitude outside [-90, 90]. *)

Definition nat_str (n : Z) : string :=
  NilZero.string_of_uint (N.to_uint (Z.to_N n)).

Definition round_half_even (q : Q) : Z :=
  let n := Qnum q in
  let d := Z.pos (Qden q) in
  let fl := (n / d)%Z in
  match (2 * (n mod d) ?= d)%Z with
  | Lt => fl
  | Gt => (fl + 1)%Z
  | Eq => if Z.even fl then fl else (fl + 1)%Z
  end.

Definition pad4 (s : string) : string :=
  match String.length s with
  | 1%nat => "000" ++ s
  | 2%nat => "00" ++ s
  | 3%nat => "0" ++ s
  | _ => s
  end.

Definition dec_format_4f (q : Q) : string :=
  let a := Z.abs (round_half_even (q * 10000)) in
  (if Qltb q 0 then "-" else "") ++
  nat_str (a / 10000) ++ "." ++ pad4 (nat_str (a mod 10000)).

Definition dec_digits (s : string) : result Z :=
  match NilZero.uint_of_string s with
  | Some u => Ok (Z.of_uint u)
  | None => Err ValueError
  end.

Definition dec_unsigned (s : string) : result Q :=
  match split_char "." s with
  | [i] => n <- dec_digits i ;; Ok (inject_Z n)
  | [i; f] =>
      n <- dec_digits i ;;
      m <- dec_digits f ;;
      let scale := (10 ^ Z.of_nat (String.length f))%Z in
      Ok (Qmake (n * scale + m) (Z.to_pos scale))
  | _ => Err ValueError
  end.

Definition dec_float_of_str (s : string) : result Q :=
  match s with
  | String "-" s' => q <- dec_unsigned s' ;; Ok (- q)
  | _ => dec_unsigned s
  end.

Definition dec_distance (p q : Q * Q) : result Q :=
  if Qle_bool (-90) (fst p) && Qle_bool (fst p) 90 &&
     Qle_bool (-90) (fst q) && Qle_bool (fst q) 90
  then Ok (111195 * (Qabs (fst p - fst q) + Qabs (snd p - snd q)))
  else Err ValueError.

#[export] Instance DecimalFloat : PyFloat := {|
  float := Q;
  format_4f := dec_format_4f;
  float_str := dec_format_4f;
  float_of_str := dec_float_of_str;
  geodesic_meters := dec_distance;
  float_le := Qle_bool
|}.

(** ** The policies in the words of the specification *)

(** Building values that make a residence (4.5, rule 3). *)
Definition residential_buildings : list pyval :=
  [PStr "house"; PStr "residential"; PStr "apartments"].

(** The first value of the list that is present and truthy, [dflt] if
    there is none. *)
Fixpoint first_truthy (candidates : list pyval) (dflt : pyval) : pyval :=
  match candidates with
  | [] => dflt
  | v :: rest => if truthy v then v else first_truthy rest dflt
  end.

(** The first value of the list that is present, [dflt] if there is none. *)
Fixpoint first_present (candidates : list (option pyval)) (dflt : pyval) : pyval :=
  match candidates with
  | [] => dflt
  | Some v :: _ => v
  | None :: rest => first_present rest dflt
  end.

(** A name field that is not used as the name: falsy (absent, null or
    empty) or a text of digits only. *)
Definition name_unusable (name_field : pyval) : bool :=
  negb (truthy name_field) ||
  match name_field with
  | PStr s => str_isdigit s
  | _ => false
  end.

(** The display name as 4.5 words it, with "present" read as "the key is
    there": the name field unless it is empty or all digits, else the first
    present of amenity, shop, building, tourism, else the first segment of
    the formatted address. *)
Definition place_name_by_presence (name_field : pyval) (display_name : string)
    (address : dict pyval) : pyval :=
  if name_unusable name_field
  then first_present
         [dict_get "amenity" address; dict_get "shop" address;
          dict_get "building" address; dict_get "tourism" address]
         (PStr (first_segment display_name))
  else name_field.

(** The same with "present" read as "there with a truthy (non-empty) value". *)
Definition place_name_by_truth (name_field : pyval) (display_name : string)
    (address : dict pyval) : pyval :=
  if name_unusable name_field
  then first_truthy
         [dict_get_default "amenity" PNone address;
          dict_get_default "shop" PNone address;
          dict_get_default "building" PNone address;
          dict_get_default "tourism" PNone address]
         (PStr (first_segment display_name))
  else name_field.

Section Policies.

Context {F : PyFloat}.

(** Decoding a key back into a coordinate (4.3): exactly two
    comma-separated parts, each of them a float. *)
Definition decode_key (cache_key : string) : option (float * float) :=
  match split_comma cache_key with
  | [a; b] =>
      match float_of_str a, float_of_str b with
      | Ok x, Ok y => Some (x, y)
      | _, _ => None
      end
  | _ => None
  end.

(** An entry is within the radius when its key decodes and the geodesic
    distance from the query to the decoded coordinate is at most the radius. *)
Definition entry_within (latitude longitude radius : float)
    (entry : string * PlaceEnrichment) : bool :=
  match decode_key (fst entry) with
  | Some c =>
      match geodesic_meters (latitude, longitude) c with
      | Ok distance => float_le distance radius
      | Err _ => false
      end
  | None => false
  end.

End Policies.

(** ** Sample data *)

Definition joes_raw : dict pyval :=
  [("place_id", PInt 4711);
   ("lat", PStr "37.0000");
   ("lon", PStr "-122.0000");
   ("name", PStr "123");
   ("display_name", PStr "Joe's Diner, 123, Main Street, Santa Cruz, California, 95060, United States");
   ("address",
    PDict [("amenity", PStr "Joe's Diner");
           ("house_number", PStr "123");
           ("road", PStr "Main Street");
           ("city", PStr "Santa Cruz");
           ("state", PStr "California");
           ("postcode", PStr "95060");
           ("country", PStr "United States")])].

Definition joes_location : Location :=
  {| location_address :=
       PStr "Joe's Diner, 123, Main Street, Santa Cruz, California, 95060, United States";
     location_raw := joes_raw |}.

Definition joes_record : PlaceEnrichment :=
  {| name := PStr "Joe's Diner";
     address :=
       PStr "Joe's Diner, 123, Main Street, Santa Cruz, California, 95060, United States";
     city := PStr "Santa Cruz";
     state := PStr "California";
     country := PStr "United States";
     postal_code := PStr "95060";
     place_type := PStr "Joe's Diner";
     raw_data := PDict joes_raw |}.

(** A response whose amenity label is there but empty. *)
Definition bakery_raw : dict pyval :=
  [("name", PStr "");
   ("display_name", PStr "12, Mill Lane, Ely");
   ("address", PDict [("amenity", PStr ""); ("shop", PStr "Bakery")])].

(** A response whose name is null, and one whose name is a house number in
    Arabic-Indic digits. *)
Definition null_name_raw : dict pyval :=
  [("name", PNone);
   ("display_name", PStr "Cafe Riche, Talaat Harb, Cairo");
   ("address", PDict [("amenity", PStr "Cafe Riche")])].

Definition arabic_digits_raw : dict pyval :=
  [("name", PStr "١٢٣");
   ("display_name", PStr "Cafe Riche, Talaat Harb, Cairo");
   ("address", PDict [("amenity", PStr "Cafe Riche")])].

(** A record as a hand-written cache file may give it: only a name. *)
Definition home_record : PlaceEnrichment :=
  {| name := PStr "Home"; address := PNone; city := PNone; state := PNone;
     country := PNone; postal_code := PNone; place_type := PNone;
     raw_data := PNone |}.

Definition home_file : file :=
  Document (PDict [("37.0000,-122.0000", PDict [("name", PStr "Home")])]).

(** Provider stubs: one that answers every request the same way, and one
    that follows a script, request by request. *)
Definition always (r : reply) : list string -> string -> reply :=
  fun _ _ => r.

Definition scripted (script : list reply) (dflt : reply)
    : list string -> string -> reply :=
  fun earlier _ => nth (length earlier) script dflt.

(** A request that times out: [reverse] is called with [timeout=10]. *)
Definition timeout_reply : reply :=
  {| reply_outcome := Raises; reply_latency := 10 |}.

(** A request that fails fast, as on a refused connection. *)
Definition refused_reply : reply :=
  {| reply_outcome := Raises; reply_latency := 1 # 20 |}.

Definition no_result_reply : reply :=
  {| reply_outcome := Returns None; reply_latency := 1 # 4 |}.

Definition joes_reply : reply :=
  {| reply_outcome := Returns (Some joes_location); reply_latency := 1 # 4 |}.

(** An enricher started on the hand-written file at clock reading 1000,
    with the default radius of 50 m. *)
Definition home_world (service : list string -> string -> reply)
    : World DecimalFloat :=
  PlaceEnricher_init (F := DecimalFloat) 50 1000 home_file Completes service.

(** An enricher started without a cache file. *)
Definition empty_world (service : list string -> string -> reply)
    : World DecimalFloat :=
  PlaceEnricher_init (F := DecimalFloat) 50 1000 Absent Completes service.

(** A response that gives the address as one string instead of a mapping. *)
Definition flat_location : Location :=
  {| location_address := PStr "12, Mill Lane, Ely";
     location_raw :=
       [("name", PStr "Mill House");
        ("display_name", PStr "12, Mill Lane, Ely");
        ("address", PStr "12, Mill Lane, Ely")] |}.

Definition flat_reply : reply :=
  {| reply_outcome := Returns (Some flat_location); reply_latency := 1 # 4 |}.

(** An enricher without a cache file on a file system that refuses writes. *)
Definition readonly_world (service : list string -> string -> reply)
    : World DecimalFloat :=
  PlaceEnricher_init (F := DecimalFloat) 50 1000 Absent FailsBeforeOpen service.

(** An enricher started on the hand-written file, on a disk that is full:
    the file can be opened for writing but the dump fails. *)
Definition full_disk_world (service : list string -> string -> reply)
    : World DecimalFloat :=
  PlaceEnricher_init (F := DecimalFloat) 50 1000 home_file FailsAfterOpen service.

(** ** The enrichment script ([scripts/enrich_places.py])

    The parts of [main] that deal with the enricher: the cap on the number
    of places, the loop that enriches them and keeps the three counters, and
    the address object built for the database. The classifier, the
    semantic enricher and the database session that the loop also calls are
    other modules and services; they read the record and do not touch the
    enricher or the counters, and are left out. *)

(** [l[:n]]: a negative [n] counts from the end. *)
Definition py_slice_to {A : Type} (n : Z) (l : list A) : list A :=
  if (0 <=? n)%Z then firstn (Z.to_nat n) l
  else firstn (Z.to_nat (Z.of_nat (length l) + n)) l.

(** "Limit to max calls" of [main] (source lines 112-115). *)
Definition limit_places {A : Type} (max_calls : Z) (places_to_enrich : list A)
    : list A :=
  if (max_calls <? Z.of_nat (length places_to_enrich))%Z
  then py_slice_to max_calls places_to_enrich
  else places_to_enrich.

(** The counters of [main]. *)
Record Tally : Type := {
  enriched_count : nat;
  cached_count : nat;
  failed_count : nat
}.

Definition no_tally : Tally :=
  {| enriched_count := 0; cached_count := 0; failed_count := 0 |}.

(** "Build address JSONB" of [main] (source lines 191-202). *)
Definition address_data (enrichment : PlaceEnrichment) : dict pyval :=
  let d0 : dict pyval := [] in
  let d1 := if truthy (address enrichment)
            then dict_set "full_address" (address enrichment) d0 else d0 in
  let d2 := if truthy (city enrichment)
            then dict_set "city" (city enrichment) d1 else d1 in
  let d3 := if truthy (state enrichment)
            then dict_set "state" (state enrichment) d2 else d2 in
  let d4 := if truthy (country enrichment)
            then dict_set "country" (country enrichment) d3 else d3 in
  if truthy (postal_code enrichment)
  then dict_set "postal_code" (postal_code enrichment) d4 else d4.

(** The [address] parameter of the update (source line 223):
    [json.dumps(address_data) if address_data else None], the JSON text
    standing for the object it holds. *)
Definition address_param (enrichment : PlaceEnrichment) : pyval :=
  if truthy (PDict (address_data enrichment))
  then PDict (address_data enrichment)
  else PNone.

Section EnrichScript.

Context {F : PyFloat}.

(** A row of [places_to_enrich]. *)
Record PlaceRow : Type := {
  place_id : string;
  place_latitude : float;
  place_longitude : float;
  place_name : pyval;
  place_visit_count : Z
}.

(** One turn of the loop of [main] (source lines 138-159 and 229-230): the
    call, the test [cache_key in enricher.cache and not args.force], and
    the counter that is stepped. *)
Definition enrich_one (force : bool) (st : Tally * World F) (place : PlaceRow)
    : Tally * World F :=
  let t := fst st in
  let (enrichment, w) :=
    enrich_place (place_latitude place) (place_longitude place) force (snd st) in
  match enrichment with
  | Some _ =>
      let cache_key :=
        _get_cache_key (place_latitude place) (place_longitude place) in
      let from_cache := dict_mem cache_key (cache w) && negb force in
      if from_cache
      then ({| enriched_count := enriched_count t;
               cached_count := S (cached_count t);
               failed_count := failed_count t |}, w)
      else ({| enriched_count := S (enriched_count t);
               cached_count := cached_count t;
               failed_count := failed_count t |}, w)
  | None =>
      ({| enriched_count := enriched_count t;
          cached_count := cached_count t;
          failed_count := S (failed_count t) |}, w)
  end.

(** The loop of [main] over the places, from counters at zero. *)
Definition enrich_all (force : bool) (places : list PlaceRow) (w : World F)
    : Tally * World F :=
  fold_left (enrich_one force) places (no_tally, w).

(** The run of [main] on the rows the query gave: cap, then loop. *)
Definition enrich_run (max_calls : Z) (force : bool) (rows : list PlaceRow)
    (w : World F) : Tally * World F :=
  enrich_all force (limit_places max_calls rows) w.

End EnrichScript.

(** Three rows as the query of the script gives them. *)
Definition sample_rows : list (@PlaceRow DecimalFloat) :=
  [ {| place_id := "0b6f"; place_latitude := 37 # 1;
       place_longitude := - (122 # 1); place_name := PNone;
       place_visit_count := 41 |};
    {| place_id := "77c2"; place_latitude := 375 # 10;
       place_longitude := - (122 # 1); place_name := PStr "";
       place_visit_count := 12 |};
    {| place_id := "e410"; place_latitude := 38 # 1;
       place_longitude := - (121 # 1); place_name := PStr "Place at 38.0, -121.0";
       place_visit_count := 3 |} ].

(** ** The migration script ([scripts/migrate_from_myndy_ai.py])

    [LocationDataMigrator.migrate_location_data]. A column value is a
    [pyval] ([PNone] for NULL), a row id is its text. The target table is
    the list of its rows; the statement
    [INSERT ... ON CONFLICT (id) DO NOTHING] adds a row unless a row with
    the same id is there. *)

(** A row of the source query, by column. *)
Record SourceRow : Type := {
  src_id : string;
  src_timestamp : pyval;
  src_latitude : pyval;
  src_longitude : pyval;
  src_accuracy : pyval;
  src_altitude : pyval;
  src_source : pyval;
  src_data : pyval;
  src_created_at : pyval;
  src_updated_at : pyval
}.

(** The twelve values of an insert, by column. *)
Record TargetRow : Type := {
  tgt_id : string;
  tgt_timestamp : pyval;
  tgt_latitude : pyval;
  tgt_longitude : pyval;
  tgt_accuracy : pyval;
  tgt_altitude : pyval;
  tgt_speed : pyval;
  tgt_course : pyval;
  tgt_source : pyval;
  tgt_data : pyval;
  tgt_created_at : pyval;
  tgt_updated_at : pyval
}.

(** The tuple appended to the batch (source lines 142-157). *)
Definition insert_values (row : SourceRow) : TargetRow :=
  {| tgt_id := src_id row;
     tgt_timestamp := src_timestamp row;
     tgt_latitude := src_latitude row;
     tgt_longitude := src_longitude row;
     tgt_accuracy := src_accuracy row;
     tgt_altitude := src_altitude row;
     tgt_speed := PNone;
     tgt_course := PNone;
     tgt_source := src_source row;
     tgt_data := src_data row;
     tgt_created_at := src_created_at row;
     tgt_updated_at := src_updated_at row |}.

Definition has_id (i : string) (table : list TargetRow) : bool :=
  existsb (fun r => String.eqb (tgt_id r) i) table.

(** One [INSERT ... ON CONFLICT (id) DO NOTHING]. *)
Definition insert_do_nothing (table : list TargetRow) (r : TargetRow)
    : list TargetRow :=
  if has_id (tgt_id r) table then table else table ++ [r].

(** [target_cur.executemany(insert, batch)] *)
Definition executemany (batch : list TargetRow) (table : list TargetRow)
    : list TargetRow :=
  fold_left insert_do_nothing batch table.

(** The variables of [migrate_location_data] and the target database: the
    table, and the batches handed to [executemany], oldest first (each is
    followed by a commit). *)
Record Migration : Type := {
  target_table : list TargetRow;
  executed : list (list TargetRow);
  migrated : nat;
  batch : list TargetRow
}.

(** "Insert batch": [executemany], commit, count, empty the batch. *)
Definition flush_batch (m : Migration) : Migration :=
  {| target_table := executemany (batch m) (target_table m);
     executed := executed m ++ [batch m];
     migrated := migrated m + length (batch m);
     batch := [] |}.

(** One turn of the loop over the source cursor (source lines 141-173). *)
Definition migrate_row (batch_size : Z) (m : Migration) (row : SourceRow)
    : Migration :=
  let m1 := {| target_table := target_table m;
               executed := executed m;
               migrated := migrated m;
               batch := batch m ++ [insert_values row] |} in
  if (batch_size <=? Z.of_nat (length (batch m1)))%Z
  then flush_batch m1
  else m1.

(** [LocationDataMigrator.migrate_location_data] on the rows of the source
    query and the target table as it is found. *)
Definition migrate_location_data (batch_size : Z) (rows : list SourceRow)
    (table : list TargetRow) : Migration :=
  let m := fold_left (migrate_row batch_size) rows
             {| target_table := table; executed := []; migrated := 0;
                batch := [] |} in
  match batch m with
  | [] => m
  | _ :: _ => flush_batch m
  end.

(** ** The routes of the places and visits routers

    The decorators of [api/routers/places.py] and [api/routers/visits.py],
    in the order they register the routes. A request is given to the first
    route whose path and method both match; a path parameter matches one
    non-empty segment. *)

Inductive segment : Type :=
| Lit (s : string)
| Param (p : string).

Inductive http_method : Type :=
| GET
| POST
| PATCH.

Record route : Type := {
  route_method : http_method;
  route_path : list segment;
  endpoint : string
}.

Definition places_routes : list route :=
  [ {| route_method := GET; route_path := [Lit "places"];
       endpoint := "list_places" |};
    {| route_method := GET; route_path := [Lit "places"; Param "place_id"];
       endpoint := "get_place" |};
    {| route_method := GET; route_path := [Lit "places"; Lit "search"];
       endpoint := "search_places" |};
    {| route_method := GET; route_path := [Lit "places"; Lit "nearby"];
       endpoint := "get_nearby_places" |} ].

Definition visits_routes : list route :=
  [ {| route_method := GET; route_path := [Lit "visits"];
       endpoint := "list_visits" |};
    {| route_method := GET; route_path := [Lit "visits"; Param "visit_id"];
       endpoint := "get_visit" |};
    {| route_method := GET; route_path := [Lit "visits"; Lit "current"];
       endpoint := "get_current_visit" |};
    {| route_method := POST; route_path := [Lit "visits"];
       endpoint := "create_visit" |};
    {| route_method := PATCH;
       route_path := [Lit "visits"; Param "visit_id"; Lit "end"];
       endpoint := "end_visit" |};
    {| route_method := GET;
       route_path := [Lit "visits"; Lit "place"; Param "place_id"];
       endpoint := "get_visits_for_place" |} ].

Definition method_eqb (a b : http_method) : bool :=
  match a, b with
  | GET, GET => true
  | POST, POST => true
  | PATCH, PATCH => true
  | _, _ => false
  end.

Definition segment_matches (pattern : segment) (s : string) : bool :=
  match pattern with
  | Lit l => String.eqb l s
  | Param _ => negb (String.eqb s "")
  end.

Fixpoint path_matches (pattern : list segment) (path : list string) : bool :=
  match pattern, path with
  | [], [] => true
  | p :: pattern', s :: path' => segment_matches p s && path_matches pattern' path'
  | _, _ => false
  end.

(** The endpoint a request is given to, [None] when no route takes it. *)
Fixpoint dispatch (routes : list route) (m : http_method) (path : list string)
    : option string :=
  match routes with
  | [] => None
  | r :: routes' =>
      if path_matches (route_path r) path && method_eqb (route_method r) m
      then Some (endpoint r)
      else dispatch routes' m path
  end.

(** * Properties *)

Local Open Scope list_scope.

(** ** Dictionaries *)

Lemma dict_mem_get {V : Type} (k : string) (d : dict V) :
  dict_mem k d = true <-> exists v, dict_get k d = Some v.
Proof.
  unfold dict_mem. destruct (dict_get k d) as [v|].
  - split; [eauto | reflexivity].
  - split; [discriminate | intros [v H]; discriminate].
Qed.

Lemma dict_mem_false {V : Type} (k : string) (d : dict V) :
  dict_mem k d = false <-> dict_get k d = None.
Proof.
  unfold dict_mem. destruct (dict_get k d); split; congruence.
Qed.

Lemma dict_get_In {V : Type} (k : string) (v : V) (d : dict V) :
  dict_get k d = Some v -> In (k, v) d.
Proof.
  induction d as [|[k' v'] d IH]; simpl; [discriminate|].
  destruct (String.eqb_spec k k') as [->|Hne].
  - intros [= ->]. now left.
  - intros H. right. auto.
Qed.

Lemma dict_get_None_keys {V : Type} (k : string) (d : dict V) :
  dict_get k d = None <-> ~ In k (dict_keys d).
Proof.
  induction d as [|[k' v'] d IH]; simpl.
  - tauto.
  - destruct (String.eqb_spec k k') as [->|Hne].
    + split; [discriminate | intros H; exfalso; apply H; now left].
    + rewrite IH. split.
      * intros H [E|E]; [congruence | contradiction].
      * intros H E. apply H. now right.
Qed.

Lemma dict_get_set_same {V : Type} (k : string) (v : V) (d : dict V) :
  dict_get k (dict_set k v d) = Some v.
Proof.
  induction d as [|[k' v'] d IH]; simpl.
  - now rewrite String.eqb_refl.
  - destruct (String.eqb_spec k k') as [->|Hne]; simpl.
    + now rewrite String.eqb_refl.
    + destruct (String.eqb_spec k k'); [contradiction | exact IH].
Qed.

Lemma dict_get_set_other {V : Type} (k k0 : string) (v : V) (d : dict V) :
  k0 <> k -> dict_get k0 (dict_set k v d) = dict_get k0 d.
Proof.
  intros Hne. induction d as [|[k' v'] d IH]; simpl.
  - destruct (String.eqb_spec k0 k); [contradiction | reflexivity].
  - destruct (String.eqb_spec k k') as [->|Hkk']; simpl.
    + destruct (String.eqb_spec k0 k'); [contradiction | reflexivity].
    + destruct (String.eqb_spec k0 k'); [reflexivity | exact IH].
Qed.

Lemma dict_set_fresh {V : Type} (k : string) (v : V) (d : dict V) :
  ~ In k (dict_keys d) -> dict_set k v d = d ++ [(k, v)].
Proof.
  induction d as [|[k' v'] d IH]; simpl; intros H.
  - reflexivity.
  - destruct (String.eqb_spec k k') as [->|Hne].
    + exfalso. apply H. now left.
    + f_equal. apply IH. intros E. apply H. now right.
Qed.

Lemma dict_keys_set {V : Type} (k : string) (v : V) (d : dict V) :
  dict_keys (dict_set k v d) =
  if dict_mem k d then dict_keys d else dict_keys d ++ [k].
Proof.
  unfold dict_mem. induction d as [|[k' v'] d IH]; simpl.
  - reflexivity.
  - destruct (String.eqb_spec k k') as [->|Hne]; simpl.
    + reflexivity.
    + rewrite IH. now destruct (dict_get k d).
Qed.

(** Assignment keeps the keys of a dictionary distinct. *)
Lemma dict_set_NoDup {V : Type} (k : string) (v : V) (d : dict V) :
  NoDup (dict_keys d) -> NoDup (dict_keys (dict_set k v d)).
Proof.
  intros Hnd. rewrite dict_keys_set.
  destruct (dict_mem k d) eqn:E; [exact Hnd|].
  apply dict_mem_false, dict_get_None_keys in E.
  apply NoDup_app; [exact Hnd | constructor; [intros [] | constructor] |].
  intros x Hx [<-|[]]. contradiction.
Qed.

(** Over distinct keys a comprehension maps the entries one by one. *)
Lemma dict_comprehension_acc {V W : Type} (f : string -> V -> W)
    (d : dict V) (acc : dict W) :
  NoDup (dict_keys acc ++ dict_keys d) ->
  fold_left (fun a kv => dict_set (fst kv) (f (fst kv) (snd kv)) a) d acc =
  acc ++ map (fun kv => (fst kv, f (fst kv) (snd kv))) d.
Proof.
  revert acc. induction d as [|[k v] d IH]; simpl; intros acc Hnd.
  - now rewrite app_nil_r.
  - rewrite dict_set_fresh.
    + rewrite IH.
      * now rewrite <- app_assoc.
      * unfold dict_keys in *. rewrite map_app. simpl.
        rewrite <- app_assoc. exact Hnd.
    + apply NoDup_remove_2 in Hnd. intros E. apply Hnd.
      apply in_or_app. now left.
Qed.

Lemma dict_comprehension_map {V W : Type} (f : string -> V -> W) (d : dict V) :
  NoDup (dict_keys d) ->
  dict_comprehension f d = map (fun kv => (fst kv, f (fst kv) (snd kv))) d.
Proof.
  intros Hnd. unfold dict_comprehension.
  now rewrite dict_comprehension_acc.
Qed.

Lemma dict_comprehension_try_acc {V W : Type} (f : string -> V -> result W)
    (g : V -> W) (d : dict V) (acc : dict W) :
  (forall k v, In (k, v) d -> f k v = Ok (g v)) ->
  NoDup (dict_keys acc ++ dict_keys d) ->
  dict_comprehension_try f d acc = Ok (acc ++ map (fun kv => (fst kv, g (snd kv))) d).
Proof.
  revert acc. induction d as [|[k v] d IH]; simpl; intros acc Hf Hnd.
  - now rewrite app_nil_r.
  - rewrite (Hf k v) by now left. simpl.
    rewrite dict_set_fresh.
    + rewrite IH.
      * now rewrite <- app_assoc.
      * intros k0 v0 H0. apply Hf. now right.
      * unfold dict_keys in *. rewrite map_app. simpl.
        rewrite <- app_assoc. exact Hnd.
    + apply NoDup_remove_2 in Hnd. intros E. apply Hnd.
      apply in_or_app. now left.
Qed.

(** ** Classification *)

Lemma py_eq_str_true (v : pyval) (s : string) :
  py_eq_str v s = true <-> v = PStr s.
Proof.
  destruct v; simpl; try (split; [discriminate | intros [=]]).
  rewrite String.eqb_eq. split; [now intros -> | now intros [= ->]].
Qed.

Lemma py_in_strs_In (v : pyval) (l : list string) :
  py_in_strs v l = true <-> In v (map PStr l).
Proof.
  unfold py_in_strs. rewrite existsb_exists, in_map_iff. split.
  - intros [s [Hs He]]. exists s. apply py_eq_str_true in He. now subst.
  - intros [s [He Hs]]. exists s. split; [exact Hs|].
    now apply py_eq_str_true.
Qed.

(** The classifier never raises: the key it reads was just tested. *)
Lemma classify_total (address : dict pyval) :
  exists label, _classify_place_type address = Ok label.
Proof.
  unfold _classify_place_type, dict_mem, dict_index.
  destruct (dict_get "amenity" address); [eauto|].
  destruct (dict_get "shop" address); [eauto|].
  destruct (dict_get "building" address) as [b|]; cbn [bind].
  - destruct (py_in_strs b ["house"; "residential"; "apartments"]); eauto.
  - destruct (dict_get "highway" address); eauto.
Qed.

(** C5. For every address-components mapping the classifier returns, by
    the first rule that applies: the amenity value itself when an amenity
    label is present; else "commercial" when a shop label is present; else,
    when a building label is present, "residence" if its value is one of
    house, residential, apartments and "building" if not; else "road" when a
    highway label is present; else "unknown". *)
Theorem classify_first_match (address : dict pyval) :
  (forall amenity, dict_get "amenity" address = Some amenity ->
     _classify_place_type address = Ok amenity) /\
  (dict_get "amenity" address = None ->
   (forall shop, dict_get "shop" address = Some shop ->
      _classify_place_type address = Ok (PStr "commercial")) /\
   (dict_get "shop" address = None ->
    (forall building, dict_get "building" address = Some building ->
       (In building residential_buildings ->
          _classify_place_type address = Ok (PStr "residence")) /\
       (~ In building residential_buildings ->
          _classify_place_type address = Ok (PStr "building"))) /\
    (dict_get "building" address = None ->
     (forall highway, dict_get "highway" address = Some highway ->
        _classify_place_type address = Ok (PStr "road")) /\
     (dict_get "highway" address = None ->
        _classify_place_type address = Ok (PStr "unknown"))))).
Proof.
  unfold _classify_place_type, dict_mem, dict_index. split.
  - intros amenity ->. reflexivity.
  - intros ->. split.
    + intros shop ->. reflexivity.
    + intros ->. split.
      * intros building ->. cbn [bind].
        destruct (py_in_strs building ["house"; "residential"; "apartments"]) eqn:E.
        -- split; [reflexivity|]. intros Hn. exfalso. apply Hn.
           apply py_in_strs_In in E. exact E.
        -- split; [|reflexivity]. intros Hin.
           apply (py_in_strs_In building ["house"; "residential"; "apartments"]) in Hin.
           congruence.
      * intros ->. split.
        -- intros highway ->. reflexivity.
        -- intros ->. reflexivity.
Qed.

Lemma classify_first_match_witness :
  _classify_place_type [("building", PStr "apartments")] = Ok (PStr "residence").
Proof.
  destruct (classify_first_match [("building", PStr "apartments")]) as [_ H].
  destruct (H eq_refl) as [_ H1].
  destruct (H1 eq_refl) as [H2 _].
  destruct (H2 (PStr "apartments") eq_refl) as [H3 _].
  apply H3. simpl. auto.
Defined.

(** The examples of section 8 of the specification. *)
Example classify_examples :
  _classify_place_type [("amenity", PStr "cafe")] = Ok (PStr "cafe") /\
  _classify_place_type [("shop", PStr "bakery")] = Ok (PStr "commercial") /\
  _classify_place_type [("building", PStr "apartments")] = Ok (PStr "residence") /\
  _classify_place_type [("building", PStr "warehouse")] = Ok (PStr "building") /\
  _classify_place_type [("highway", PStr "residential")] = Ok (PStr "road") /\
  _classify_place_type [] = Ok (PStr "unknown").
Proof. repeat split. Qed.

(** ** The display name *)

Lemma py_or_first_truthy (v : pyval) (rest : list pyval) (dflt : pyval) :
  py_or v (Ok (first_truthy rest dflt)) = Ok (first_truthy (v :: rest) dflt).
Proof. unfold py_or. simpl. now destruct (truthy v). Qed.

(** C6, as amended. For every raw response whose name is a string or
    falsy (absent, null, empty), whose formatted address is a string when
    present and whose address is a mapping when present, the extracted name
    is the name field unless that is falsy or consists only of digits (as
    [str.isdigit] has them); in that case it is the first of the address
    values amenity, shop, building, tourism, in that order, that is present
    with a truthy (non-empty) value; and if there is none, the first
    comma-delimited segment of the formatted address (empty when there is
    no formatted address). *)
Theorem extract_place_name_policy (raw : dict pyval) (display_name : string)
    (address : dict pyval) :
  (exists s, dict_get_default "name" (PStr "") raw = PStr s) \/
  truthy (dict_get_default "name" (PStr "") raw) = false ->
  dict_get_default "display_name" (PStr "") raw = PStr display_name ->
  dict_get_default "address" (PDict []) raw = PDict address ->
  extract_place_name raw (dict_get_default "address" (PDict []) raw) =
  Ok (place_name_by_truth (dict_get_default "name" (PStr "") raw)
        display_name address).
Proof.
  intros Hname Hdisplay ->.
  unfold extract_place_name, place_name_by_truth, name_unusable.
  rewrite Hdisplay. cbn [py_get py_first_segment bind].
  assert (Hchain :
    py_or (dict_get_default "amenity" PNone address)
      (py_or (dict_get_default "shop" PNone address)
         (py_or (dict_get_default "building" PNone address)
            (py_or (dict_get_default "tourism" PNone address)
               (Ok (PStr (first_segment display_name)))))) =
    Ok (first_truthy
          [dict_get_default "amenity" PNone address;
           dict_get_default "shop" PNone address;
           dict_get_default "building" PNone address;
           dict_get_default "tourism" PNone address]
          (PStr (first_segment display_name)))).
  { change (Ok (PStr (first_segment display_name)))
      with (Ok (first_truthy [] (PStr (first_segment display_name)))).
    now rewrite !py_or_first_truthy. }
  destruct Hname as [[s Hs]|Hfalsy].
  - rewrite Hs. cbn [truthy py_isdigit].
    destruct (String.eqb s ""); cbn [negb orb bind].
    + exact Hchain.
    + destruct (str_isdigit s); [exact Hchain | reflexivity].
  - rewrite Hfalsy. cbn [negb orb bind]. exact Hchain.
Qed.

(** Raw name "123" with address amenity "Joe's Diner" gives "Joe's Diner". *)
Lemma extract_place_name_policy_witness :
  ((exists s, dict_get_default "name" (PStr "") joes_raw = PStr s) \/
   truthy (dict_get_default "name" (PStr "") joes_raw) = false) /\
  extract_place_name joes_raw (dict_get_default "address" (PDict []) joes_raw) =
  Ok (PStr "Joe's Diner").
Proof.
  assert (Hname : (exists s, dict_get_default "name" (PStr "") joes_raw = PStr s) \/
                  truthy (dict_get_default "name" (PStr "") joes_raw) = false).
  { left. exists "123"%string. reflexivity. }
  split; [exact Hname|].
  exact (@extract_place_name_policy joes_raw
           "Joe's Diner, 123, Main Street, Santa Cruz, California, 95060, United States"
           _ Hname eq_refl eq_refl).
Defined.

(** A null name counts as no name, and digits of another script than the
    ASCII ones count as digits: both responses get the amenity as name. *)
Example extract_place_name_null_and_unicode :
  extract_place_name null_name_raw
    (dict_get_default "address" (PDict []) null_name_raw) = Ok (PStr "Cafe Riche") /\
  str_isdigit "١٢٣" = true /\
  extract_place_name arabic_digits_raw
    (dict_get_default "address" (PDict []) arabic_digits_raw) = Ok (PStr "Cafe Riche").
Proof. repeat split. Qed.

(** C6 as it is worded fails where a label is present but empty: with an
    empty name, an empty amenity label and the shop label "Bakery", the
    first present sub-field is the amenity, yet the extracted name is the
    shop. *)
Lemma extract_place_name_skips_empty_label :
  let address := [("amenity", PStr ""); ("shop", PStr "Bakery")] in
  dict_get_default "name" (PStr "") bakery_raw = PStr "" /\
  dict_get_default "display_name" (PStr "") bakery_raw = PStr "12, Mill Lane, Ely" /\
  dict_get_default "address" (PDict []) bakery_raw = PDict address /\
  dict_get "amenity" address = Some (PStr "") /\
  extract_place_name bakery_raw (PDict address) = Ok (PStr "Bakery") /\
  extract_place_name bakery_raw (PDict address) <>
  Ok (place_name_by_presence (PStr "") "12, Mill Lane, Ely" address).
Proof.
  cbv zeta. repeat split; try reflexivity. vm_compute. discriminate.
Qed.

(** ** The proximity scan *)

Section Proximity.

Context {F : PyFloat}.

(** The [try] body answers [True] exactly for the entries within the
    radius; any exception and any larger distance count as "not within". *)
Lemma within_cache_radius_entry (latitude longitude radius : float)
    (cache_key : string) (record : PlaceEnrichment) :
  match within_cache_radius latitude longitude radius cache_key with
  | Ok b => b
  | Err _ => false
  end = entry_within latitude longitude radius (cache_key, record).
Proof.
  unfold within_cache_radius, entry_within, decode_key, unpack_two_floats.
  cbn [fst snd].
  destruct (split_comma cache_key) as [|p1 [|p2 [|p3 rest]]]; cbn [bind];
    try reflexivity.
  - destruct (float_of_str p1); reflexivity.
  - destruct (float_of_str p1) as [x|]; cbn [bind]; [|reflexivity].
    destruct (float_of_str p2) as [y|]; cbn [bind fst snd]; [|reflexivity].
    destruct (geodesic_meters (latitude, longitude) (x, y)); reflexivity.
  - destruct (float_of_str p1) as [x|]; cbn [bind]; [|reflexivity].
    destruct (float_of_str p2) as [y|]; cbn [bind]; [|reflexivity].
    destruct (float_of_str p3); reflexivity.
Qed.

Lemma find_cached_nearby_in_spec (latitude longitude radius : float)
    (items : dict PlaceEnrichment) :
  match find_cached_nearby_in latitude longitude radius items with
  | Some record =>
      exists before cache_key after,
        items = before ++ (cache_key, record) :: after /\
        entry_within latitude longitude radius (cache_key, record) = true /\
        Forall (fun e => entry_within latitude longitude radius e = false) before
  | None =>
      Forall (fun e => entry_within latitude longitude radius e = false) items
  end.
Proof.
  induction items as [|[k r] items IH]; cbn [find_cached_nearby_in].
  - constructor.
  - pose proof (within_cache_radius_entry latitude longitude radius k r) as Hk.
    destruct (within_cache_radius latitude longitude radius k) as [[|]|e].
    + exists [], k, items. repeat split; [now symmetry | constructor].
    + destruct (find_cached_nearby_in latitude longitude radius items) as [r'|].
      * destruct IH as (before & k' & after & -> & Hin & Hbefore).
        exists ((k, r) :: before), k', after.
        repeat split; [exact Hin | constructor; [now symmetry | exact Hbefore]].
      * constructor; [now symmetry | exact IH].
    + destruct (find_cached_nearby_in latitude longitude radius items) as [r'|].
      * destruct IH as (before & k' & after & -> & Hin & Hbefore).
        exists ((k, r) :: before), k', after.
        repeat split; [exact Hin | constructor; [now symmetry | exact Hbefore]].
      * constructor; [now symmetry | exact IH].
Qed.

(** C7. For every store and query coordinate, the proximity scan returns
    the record of the first entry, in the order the store enumerates them,
    whose key decodes to a coordinate at a geodesic distance within the
    radius of the query; an entry whose key does not decode counts as not
    within the radius and is passed over; if no entry is within the radius
    the result is [None]. *)
Theorem find_cached_nearby_first_within (latitude longitude : float)
    (w : World F) :
  match _find_cached_nearby latitude longitude w with
  | Some record =>
      exists before cache_key after,
        cache w = before ++ (cache_key, record) :: after /\
        entry_within latitude longitude (cache_radius w) (cache_key, record) = true /\
        Forall (fun e => entry_within latitude longitude (cache_radius w) e = false)
               before
  | None =>
      Forall (fun e => entry_within latitude longitude (cache_radius w) e = false)
             (cache w)
  end.
Proof. apply find_cached_nearby_in_spec. Qed.

(** A key that does not decode is never matched. *)
Lemma entry_within_undecodable (latitude longitude radius : float)
    (entry : string * PlaceEnrichment) :
  decode_key (fst entry) = None ->
  entry_within latitude longitude radius entry = false.
Proof. unfold entry_within. now intros ->. Qed.

End Proximity.

(** The scan takes the first entry within the radius, not the nearest: the
    query is 44 m from the first entry and 11 m from the second. *)
Example find_cached_nearby_not_nearest :
  find_cached_nearby_in (F := DecimalFloat) (370004 # 10000) (- (122 # 1)) 50
    [("bad key", joes_record);
     ("37.0000,-122.0000", home_record);
     ("37.0005,-122.0000", joes_record)] = Some home_record.
Proof. reflexivity. Qed.

(** ** The orchestrator *)

Lemma Qltb_lt (a b : Q) : Qltb a b = true <-> a < b.
Proof. unfold Qltb, Qlt. apply Z.ltb_lt. Qed.

Lemma Qltb_ge (a b : Q) : Qltb a b = false <-> b <= a.
Proof. unfold Qltb, Qle. apply Z.ltb_ge. Qed.

Lemma requests_of_app (l1 l2 : list event) :
  requests_of (l1 ++ l2) = requests_of l1 ++ requests_of l2.
Proof.
  induction l1 as [|[s|t q|] l1 IH]; simpl; [reflexivity | | | ]; now rewrite ?IH.
Qed.

Lemma issue_times_app (l1 l2 : list event) :
  issue_times (l1 ++ l2) = issue_times l1 ++ issue_times l2.
Proof.
  induction l1 as [|[s|t q|] l1 IH]; simpl; [reflexivity | | | ]; now rewrite ?IH.
Qed.

Lemma save_count_app (l1 l2 : list event) :
  save_count (l1 ++ l2) = (save_count l1 + save_count l2)%nat.
Proof.
  induction l1 as [|[s|t q|] l1 IH]; simpl; [reflexivity | | | ]; now rewrite ?IH.
Qed.

Section Orchestrator.

Context {F : PyFloat}.

(** The wait of the rate limiter touches the clock and the event log only. *)
Lemma rate_limit_frame (w : World F) :
  cache (rate_limit w) = cache w /\
  cache_radius (rate_limit w) = cache_radius w /\
  last_request_time (rate_limit w) = last_request_time w /\
  min_request_interval (rate_limit w) = min_request_interval w /\
  cache_file (rate_limit w) = cache_file w /\
  fs_write (rate_limit w) = fs_write w /\
  geocoder (rate_limit w) = geocoder w /\
  requests_of (events (rate_limit w)) = requests_of (events w) /\
  issue_times (events (rate_limit w)) = issue_times (events w) /\
  save_count (events (rate_limit w)) = save_count (events w).
Proof.
  unfold rate_limit.
  destruct (Qltb (clock w - last_request_time w) (min_request_interval w));
    cbn; repeat split; auto.
  - rewrite requests_of_app. cbn. apply app_nil_r.
  - rewrite issue_times_app. cbn. apply app_nil_r.
  - rewrite save_count_app. cbn. apply Nat.add_0_r.
Qed.

(** After the wait at least the minimum interval has passed since the
    recorded time of the last request. *)
Lemma rate_limit_waits (w : World F) :
  last_request_time w + min_request_interval w <= clock (rate_limit w).
Proof.
  unfold rate_limit.
  destruct (Qltb (clock w - last_request_time w) (min_request_interval w)) eqn:E.
  - cbn. lra.
  - apply Qltb_ge in E. lra.
Qed.

Lemma provider_reply_rate_limit (latitude longitude : float) (w : World F) :
  provider_reply latitude longitude (rate_limit w) =
  provider_reply latitude longitude w.
Proof.
  unfold provider_reply.
  destruct (rate_limit_frame w) as (_ & _ & _ & _ & _ & _ & -> & -> & _).
  reflexivity.
Qed.

(** A call that reaches the provider is the rate-limited request. *)
Lemma enrich_place_reaches (latitude longitude : float) (force : bool)
    (w : World F) :
  reaches_provider latitude longitude force w = true ->
  enrich_place latitude longitude force w =
  geocode_and_cache latitude longitude (_get_cache_key latitude longitude)
    (rate_limit w).
Proof.
  unfold reaches_provider, enrich_place, dict_mem.
  destruct force; [reflexivity|]. cbn [orb].
  destruct (dict_get (_get_cache_key latitude longitude) (cache w));
    [discriminate|].
  destruct (_find_cached_nearby latitude longitude w); [discriminate|].
  reflexivity.
Qed.

(** The three ways the request can end. *)
Lemma geocode_and_cache_raises (latitude longitude : float) (cache_key : string)
    (w : World F) :
  reply_outcome (provider_reply latitude longitude w) = Raises ->
  geocode_and_cache latitude longitude cache_key w =
  (None,
   set_clock (clock w + reply_latency (provider_reply latitude longitude w))
     (log_event
        (EvReverse (clock w) (float_str latitude ++ ", " ++ float_str longitude)%string)
        w)).
Proof.
  unfold geocode_and_cache, geocoder_reverse, provider_reply.
  now intros ->.
Qed.

Lemma geocode_and_cache_returns (latitude longitude : float) (cache_key : string)
    (w : World F) (location : option Location) :
  reply_outcome (provider_reply latitude longitude w) = Returns location ->
  let done := clock w + reply_latency (provider_reply latitude longitude w) in
  let w2 :=
    set_last_request_time done
      (set_clock done
         (log_event
            (EvReverse (clock w)
               (float_str latitude ++ ", " ++ float_str longitude)%string) w)) in
  geocode_and_cache latitude longitude cache_key w =
  match location with
  | None => (None, w2)
  | Some loc =>
      match parse_location loc with
      | Err _ => (None, w2)
      | Ok enrichment =>
          (Some enrichment,
           save_cache (set_cache (dict_set cache_key enrichment (cache w)) w2))
      end
  end.
Proof.
  unfold geocode_and_cache, geocoder_reverse, provider_reply.
  now intros ->.
Qed.

(** C1. For every coordinate whose key is in the store, [enrich_place]
    with [force = False] returns the record stored under that key and leaves
    the whole world as it was: no request to the provider and no sleep is
    logged, the time of the last request, the clock, the store and the cache
    file are unchanged. *)
Theorem enrich_place_exact_hit (latitude longitude : float) (w : World F)
    (record : PlaceEnrichment) :
  dict_get (_get_cache_key latitude longitude) (cache w) = Some record ->
  enrich_place latitude longitude false w = (Some record, w).
Proof.
  intros H. unfold enrich_place. now rewrite H.
Qed.

(** On a proximity hit the record is also put under the key of the query;
    nothing else changes, and in particular the cache file is not written. *)
Lemma enrich_place_nearby_hit (latitude longitude : float) (w : World F)
    (record : PlaceEnrichment) :
  dict_get (_get_cache_key latitude longitude) (cache w) = None ->
  _find_cached_nearby latitude longitude w = Some record ->
  enrich_place latitude longitude false w =
  (Some record,
   set_cache (dict_set (_get_cache_key latitude longitude) record (cache w)) w).
Proof.
  intros H1 H2. unfold enrich_place. now rewrite H1, H2.
Qed.

(** C3. For every call that reaches the provider, if the provider raises
    or returns no result, [enrich_place] returns [None], the store has the
    entries it had, and the cache file is neither changed nor written. *)
Theorem enrich_place_failure_not_cached (latitude longitude : float)
    (force : bool) (w : World F) :
  reaches_provider latitude longitude force w = true ->
  reply_outcome (provider_reply latitude longitude w) = Raises \/
  reply_outcome (provider_reply latitude longitude w) = Returns None ->
  fst (enrich_place latitude longitude force w) = None /\
  cache (snd (enrich_place latitude longitude force w)) = cache w /\
  cache_file (snd (enrich_place latitude longitude force w)) = cache_file w /\
  save_count (events (snd (enrich_place latitude longitude force w))) =
  save_count (events w).
Proof.
  intros Hreach Hfail.
  rewrite (enrich_place_reaches _ _ _ _ Hreach).
  rewrite <- provider_reply_rate_limit in Hfail.
  destruct (rate_limit_frame w) as (Hc & _ & _ & _ & Hf & _ & _ & _ & _ & Hs).
  destruct Hfail as [Hfail|Hfail].
  - rewrite (geocode_and_cache_raises _ _ _ _ Hfail). cbn.
    rewrite save_count_app. cbn. rewrite Nat.add_0_r. auto.
  - rewrite (geocode_and_cache_returns _ _ _ _ Hfail). cbn.
    rewrite save_count_app. cbn. rewrite Nat.add_0_r. auto.
Qed.

(** What the request does to the time of the last request. *)
Lemma geocode_and_cache_last_request_time (latitude longitude : float)
    (cache_key : string) (w : World F) :
  match reply_outcome (provider_reply latitude longitude w) with
  | Returns _ =>
      last_request_time (snd (geocode_and_cache latitude longitude cache_key w)) =
      clock w + reply_latency (provider_reply latitude longitude w)
  | Raises =>
      last_request_time (snd (geocode_and_cache latitude longitude cache_key w)) =
      last_request_time w /\
      cache (snd (geocode_and_cache latitude longitude cache_key w)) = cache w
  end.
Proof.
  destruct (reply_outcome (provider_reply latitude longitude w))
    as [|location] eqn:E.
  - rewrite (geocode_and_cache_raises _ _ _ _ E). cbn. auto.
  - rewrite (geocode_and_cache_returns _ _ _ _ E). cbn zeta.
    destruct location as [loc|]; [|reflexivity].
    destruct (parse_location loc); [|reflexivity].
    unfold save_cache. cbn.
    destruct (fs_write w); reflexivity.
Qed.

(** C10. For every call that reaches the provider: if the request returns,
    with a location or with none, the time of the last request becomes the
    clock reading taken when the request returned (the reading at which it
    was issued, after the limiter's wait, plus the time the provider took);
    if the request raises, the time of the last request and the store are
    left as they were. *)
Theorem enrich_place_last_request_time (latitude longitude : float)
    (force : bool) (w : World F) :
  reaches_provider latitude longitude force w = true ->
  match reply_outcome (provider_reply latitude longitude w) with
  | Returns _ =>
      last_request_time (snd (enrich_place latitude longitude force w)) =
      clock (rate_limit w) + reply_latency (provider_reply latitude longitude w)
  | Raises =>
      last_request_time (snd (enrich_place latitude longitude force w)) =
      last_request_time w /\
      cache (snd (enrich_place latitude longitude force w)) = cache w
  end.
Proof.
  intros Hreach.
  rewrite (enrich_place_reaches _ _ _ _ Hreach).
  rewrite <- provider_reply_rate_limit.
  destruct (rate_limit_frame w) as (Hc & _ & Ht & _).
  pose proof (geocode_and_cache_last_request_time latitude longitude
                (_get_cache_key latitude longitude) (rate_limit w)) as H.
  destruct (reply_outcome (provider_reply latitude longitude (rate_limit w))).
  - now rewrite <- Hc, <- Ht.
  - exact H.
Qed.

(** The request of a call that reaches the provider is issued at the clock
    reading the limiter's wait ends at. *)
Lemma enrich_place_issue_time (latitude longitude : float) (force : bool)
    (w : World F) :
  reaches_provider latitude longitude force w = true ->
  issue_times (events (snd (enrich_place latitude longitude force w))) =
  issue_times (events w) ++ [clock (rate_limit w)].
Proof.
  intros Hreach.
  rewrite (enrich_place_reaches _ _ _ _ Hreach).
  destruct (rate_limit_frame w) as (_ & _ & _ & _ & _ & _ & _ & _ & Hi & _).
  unfold geocode_and_cache, geocoder_reverse, save_cache.
  destruct (reply_outcome _) as [|[loc|]]; cbn;
    try (now rewrite issue_times_app, Hi).
  destruct (parse_location loc); cbn; try (now rewrite issue_times_app, Hi).
  destruct (fs_write (rate_limit w)); cbn;
    rewrite ?issue_times_app, Hi; cbn; now rewrite ?app_nil_r.
Qed.

(** No call changes the minimum interval. *)
Lemma enrich_place_min_request_interval (latitude longitude : float)
    (force : bool) (w : World F) :
  min_request_interval (snd (enrich_place latitude longitude force w)) =
  min_request_interval w.
Proof.
  assert (Hg : forall k,
             min_request_interval
               (snd (geocode_and_cache latitude longitude k (rate_limit w))) =
             min_request_interval w).
  { intros k.
    destruct (rate_limit_frame w) as (_ & _ & _ & Hm & _).
    unfold geocode_and_cache, geocoder_reverse, save_cache.
    destruct (reply_outcome _) as [|[loc|]]; cbn; try exact Hm.
    destruct (parse_location loc); cbn; try exact Hm.
    destruct (fs_write (rate_limit w)); cbn; exact Hm. }
  unfold enrich_place. destruct force; [apply Hg|].
  destruct (dict_get _ (cache w)); [reflexivity|].
  destruct (_find_cached_nearby latitude longitude w); [reflexivity | apply Hg].
Qed.

(** When a request returns, with a location or with none, the request of
    the next call that reaches the provider is issued at least the minimum
    interval later, however short the pause between the two calls. *)
Lemma returned_request_spaces_next (latitude longitude : float) (force : bool)
    (w : World F) (pause : Q) :
  reaches_provider latitude longitude force w = true ->
  reply_outcome (provider_reply latitude longitude w) <> Raises ->
  0 <= reply_latency (provider_reply latitude longitude w) ->
  clock (rate_limit w) + min_request_interval w <=
  clock (rate_limit (idle pause (snd (enrich_place latitude longitude force w)))).
Proof.
  intros Hreach Hret Hlat.
  pose proof (rate_limit_waits
                (idle pause (snd (enrich_place latitude longitude force w)))) as Hw.
  cbn [idle set_clock last_request_time min_request_interval] in Hw.
  rewrite enrich_place_min_request_interval in Hw.
  rewrite (enrich_place_reaches _ _ _ _ Hreach) in Hw.
  rewrite <- provider_reply_rate_limit in Hret, Hlat.
  pose proof (geocode_and_cache_last_request_time latitude longitude
                (_get_cache_key latitude longitude) (rate_limit w)) as H.
  destruct (reply_outcome (provider_reply latitude longitude (rate_limit w)));
    [contradiction|].
  rewrite H in Hw.
  rewrite (enrich_place_reaches _ _ _ _ Hreach).
  lra.
Qed.

End Orchestrator.

Lemma enrich_place_exact_hit_witness :
  let w := home_world (always joes_reply) in
  dict_get (_get_cache_key (F := DecimalFloat) (3700004 # 100000) (- (122 # 1)))
    (cache w) = Some home_record /\
  enrich_place (F := DecimalFloat) (3700004 # 100000) (- (122 # 1)) false w =
  (Some home_record, w).
Proof.
  cbv zeta. split; [reflexivity|].
  apply (enrich_place_exact_hit (F := DecimalFloat)). reflexivity.
Defined.

Lemma enrich_place_failure_not_cached_witness :
  let w := home_world (always refused_reply) in
  let lat : Q := 375 # 10 in
  let lon : Q := - (122 # 1) in
  reaches_provider (F := DecimalFloat) lat lon false w = true /\
  reply_outcome (provider_reply (F := DecimalFloat) lat lon w) = Raises /\
  fst (enrich_place (F := DecimalFloat) lat lon false w) = None /\
  cache (snd (enrich_place (F := DecimalFloat) lat lon false w)) = cache w /\
  cache_file (snd (enrich_place (F := DecimalFloat) lat lon false w)) = cache_file w /\
  save_count (events (snd (enrich_place (F := DecimalFloat) lat lon false w))) =
  save_count (events w).
Proof.
  cbv zeta. split; [reflexivity|]. split; [reflexivity|].
  apply (enrich_place_failure_not_cached (F := DecimalFloat));
    [reflexivity | left; reflexivity].
Defined.

Lemma enrich_place_last_request_time_witness :
  let w := empty_world (always no_result_reply) in
  let lat : Q := 375 # 10 in
  let lon : Q := - (122 # 1) in
  reaches_provider (F := DecimalFloat) lat lon true w = true /\
  last_request_time (snd (enrich_place (F := DecimalFloat) lat lon true w)) =
  clock (rate_limit w) + reply_latency (provider_reply (F := DecimalFloat) lat lon w).
Proof.
  cbv zeta. split; [reflexivity|].
  exact (enrich_place_last_request_time (F := DecimalFloat)
           (375 # 10) (- (122 # 1)) true
           (empty_world (always no_result_reply)) eq_refl).
Defined.

(** The failure-isolation scenario of section 8: the provider times out on
    the first request and answers the second; the first call leaves the
    store empty, the second stores the record under the key of the query. *)
Example failure_then_success :
  let w0 := empty_world (scripted [timeout_reply; joes_reply] refused_reply) in
  let r1 := enrich_place (F := DecimalFloat) (37 # 1) (- (122 # 1)) false w0 in
  let r2 := enrich_place (F := DecimalFloat) (37 # 1) (- (122 # 1)) false (snd r1) in
  fst r1 = None /\ cache (snd r1) = [] /\ cache_file (snd r1) = Absent /\
  fst r2 = Some joes_record /\
  cache (snd r2) = [("37.0000,-122.0000", joes_record)] /\
  cache_file (snd r2) = Document (cache_document (cache (snd r2))).
Proof. cbv zeta. repeat split. Qed.

(** ** Persistence on a proximity hit *)

(** C2, the code at the proximity scenario of section 8. The store holds a
    record under "37.0000,-122.0000" and the query is (37.0003, -122.0000),
    33 m away. The call returns the stored record without a request to the
    provider and puts it under "37.0003,-122.0000" in memory, but it does
    not write the cache file: the file still holds the one entry it had, no
    write is logged, and an enricher started from the file afterwards does
    not have the new key. *)
Theorem nearby_hit_is_not_persisted :
  let w := home_world (always joes_reply) in
  let r := enrich_place (F := DecimalFloat) (370003 # 10000) (- (122 # 1)) false w in
  dict_get "37.0003,-122.0000" (cache w) = None /\
  fst r = Some home_record /\
  dict_get "37.0003,-122.0000" (cache (snd r)) = Some home_record /\
  events (snd r) = [] /\
  cache_file (snd r) = home_file /\
  dict_get "37.0003,-122.0000" (cache (load_cache (snd r))) = None.
Proof. cbv zeta. repeat split. Qed.

(** The proximity-miss scenario of section 8: a query 200 m from the only
    entry goes to the provider. *)
Example far_query_reaches_provider :
  let w := home_world (always joes_reply) in
  let r := enrich_place (F := DecimalFloat) (370018 # 10000) (- (122 # 1)) false w in
  reaches_provider (F := DecimalFloat) (370018 # 10000) (- (122 # 1)) false w = true /\
  requests_of (events (snd r)) = ["37.0018, -122.0000"%string] /\
  fst r = Some joes_record.
Proof. cbv zeta. repeat split. Qed.

(** ** Spacing of the requests *)

(** C4, the code at two forced calls one after the other when the first
    request fails fast. The enricher starts at clock reading 1000 with the
    last request time 0. The first request is issued at 1000 and raises
    after a twentieth of a second; the time of the last request stays 0, so
    the second call does not wait and its request is issued at 1000.05,
    less than the minimum interval of one second after the first. *)
Theorem failed_request_is_not_timed :
  let w0 := empty_world (always refused_reply) in
  let r1 := enrich_place (F := DecimalFloat) (375 # 10) (- (122 # 1)) true w0 in
  let r2 := enrich_place (F := DecimalFloat) (375 # 10) (- (122 # 1)) true (snd r1) in
  min_request_interval w0 = 1 /\
  fst r1 = None /\
  last_request_time (snd r1) = 0 /\
  events (snd r2) =
    [EvReverse 1000 "37.5000, -122.0000";
     EvReverse (20001 # 20) "37.5000, -122.0000"] /\
  (20001 # 20) - 1000 < min_request_interval w0.
Proof. cbv zeta. repeat split. Qed.

(** ** The cache file *)

Lemma PlaceEnrichment_kwargs_to_dict (record : PlaceEnrichment) :
  PlaceEnrichment_kwargs (enrichment_to_dict record) = Ok record.
Proof. destruct record; reflexivity. Qed.

Lemma dict_keys_map {V W : Type} (f : string * V -> W) (d : dict V) :
  dict_keys (map (fun kv => (fst kv, f kv)) d) = dict_keys d.
Proof.
  unfold dict_keys. rewrite map_map. apply map_ext. reflexivity.
Qed.

(** Reading back the document written for a store gives the store. *)
Lemma read_cache_document (c : dict PlaceEnrichment) :
  NoDup (dict_keys c) -> read_cache (cache_document c) = Ok c.
Proof.
  intros Hnd. unfold read_cache, cache_document. cbn [py_items bind].
  rewrite dict_comprehension_map by exact Hnd.
  rewrite dict_comprehension_try_acc
    with (g := fun v => match PlaceEnrichment_kwargs v with
                        | Ok r => r
                        | Err _ => PlaceEnrichment_default
                        end).
  - cbn [app]. rewrite map_map. apply f_equal.
    rewrite <- (map_id c) at 2. apply map_ext. intros [k r]. cbn [fst snd].
    now rewrite PlaceEnrichment_kwargs_to_dict.
  - intros k v Hin. apply in_map_iff in Hin as [[k0 r] [Heq _]].
    cbn [fst snd] in Heq. injection Heq as _ <-.
    now rewrite PlaceEnrichment_kwargs_to_dict.
  - cbn [dict_keys map app].
    change (NoDup (dict_keys
      (map (fun kv : string * PlaceEnrichment =>
              (fst kv, (fun e => enrichment_to_dict (snd e)) kv)) c))).
    now rewrite dict_keys_map.
Qed.

Lemma dict_comprehension_try_NoDup {V W : Type} (f : string -> V -> result W)
    (d : dict V) (acc out : dict W) :
  NoDup (dict_keys acc) ->
  dict_comprehension_try f d acc = Ok out -> NoDup (dict_keys out).
Proof.
  revert acc. induction d as [|[k v] d IH]; cbn [dict_comprehension_try];
    intros acc Hacc.
  - now intros [= <-].
  - destruct (f k v) as [x|]; cbn [bind]; [|discriminate].
    apply IH. now apply dict_set_NoDup.
Qed.

Section Persistence.

Context {F : PyFloat}.

(** C8. For every store (its keys distinct, as the keys of a dict are)
    whose records hold any mix of [None] and other values, [raw_data]
    included: after [save_cache] on a file system where the write
    completes, [load_cache] in an enricher that finds the file as
    [save_cache] left it, whatever that enricher holds in memory, gives a
    store equal to the original. *)
Theorem save_load_roundtrip (w w' : World F) :
  NoDup (dict_keys (cache w)) ->
  fs_writable w = true ->
  cache_file w' = cache_file (save_cache w) ->
  cache (load_cache w') = cache w.
Proof.
  intros Hnd Hfs Hfile. unfold load_cache. rewrite Hfile.
  unfold save_cache, fs_writable in *.
  destruct (fs_write w); try discriminate Hfs.
  cbn [cache_file log_event set_cache_file].
  now rewrite read_cache_document by exact Hnd.
Qed.

(** The stores an enricher holds have distinct keys: it starts from
    [load_cache] and only ever assigns to a key. *)
Lemma load_cache_NoDup (w : World F) : NoDup (dict_keys (cache (load_cache w))).
Proof.
  unfold load_cache.
  destruct (cache_file w) as [| |data]; cbn; try constructor.
  destruct (read_cache data) as [c|] eqn:E; cbn; [|constructor].
  unfold read_cache in E. destruct (py_items data) as [items|]; cbn [bind] in E;
    [|discriminate].
  apply dict_comprehension_try_NoDup in E; [exact E | constructor].
Qed.

Lemma enrich_place_NoDup (latitude longitude : float) (force : bool) (w : World F) :
  NoDup (dict_keys (cache w)) ->
  NoDup (dict_keys (cache (snd (enrich_place latitude longitude force w)))).
Proof.
  intros Hnd.
  assert (Hg : forall k, NoDup (dict_keys (cache
             (snd (geocode_and_cache latitude longitude k (rate_limit w)))))).
  { intros k. unfold geocode_and_cache, geocoder_reverse.
    destruct (rate_limit_frame w) as (Hc & _).
    destruct (reply_outcome _) as [|[loc|]]; cbn; try (now rewrite Hc).
    destruct (parse_location loc); cbn; try (now rewrite Hc).
    unfold save_cache. cbn.
    destruct (fs_write (rate_limit w)); cbn; rewrite Hc;
      now apply dict_set_NoDup. }
  unfold enrich_place. destruct force; [apply Hg|].
  destruct (dict_get _ (cache w)); [exact Hnd|].
  destruct (_find_cached_nearby latitude longitude w); [|apply Hg].
  cbn. now apply dict_set_NoDup.
Qed.

End Persistence.

Lemma save_load_roundtrip_witness :
  let w :=
    set_cache [("37.0000,-122.0000", home_record);
               ("36.9741,-122.0308", joes_record);
               ("0.0000,0.0000", PlaceEnrichment_default)]
      (empty_world (always joes_reply)) in
  let w' := set_cache [] (save_cache w) in
  NoDup (dict_keys (cache w)) /\
  fs_writable w = true /\
  cache_file w' = cache_file (save_cache w) /\
  cache w' = [] /\
  cache (load_cache w') = cache w.
Proof.
  cbv zeta.
  assert (Hnd : NoDup ["37.0000,-122.0000"; "36.9741,-122.0308"; "0.0000,0.0000"]).
  { repeat constructor; cbn; intros H;
      repeat (destruct H as [H|H]; [discriminate H|]); exact H. }
  split; [exact Hnd|]. split; [reflexivity|]. split; [reflexivity|].
  split; [reflexivity|].
  apply (save_load_roundtrip (F := DecimalFloat)) with
    (w := set_cache [("37.0000,-122.0000", home_record);
                     ("36.9741,-122.0308", joes_record);
                     ("0.0000,0.0000", PlaceEnrichment_default)]
            (empty_world (always joes_reply)));
    [exact Hnd | reflexivity | reflexivity].
Defined.

(** A file with an entry that is no record, or that is no JSON at all, is
    read as an empty store. *)
Example load_cache_falls_back :
  cache (PlaceEnricher_init (F := DecimalFloat) 50 1000
           (Document (PDict [("37.0000,-122.0000", PDict [("label", PStr "Home")])]))
           Completes (always joes_reply)) = [] /\
  cache (PlaceEnricher_init (F := DecimalFloat) 50 1000 Unreadable
           Completes (always joes_reply)) = [].
Proof. split; reflexivity. Qed.

(** ** The place type of a record *)

(** The classifier answers [None] only with an amenity label that is [None]. *)
Lemma classify_not_none (address : dict pyval) (label : pyval) :
  _classify_place_type address = Ok label ->
  dict_get "amenity" address <> Some PNone ->
  label <> PNone.
Proof.
  unfold _classify_place_type, dict_mem, dict_index.
  destruct (dict_get "amenity" address) as [a|].
  - intros [= <-] Ha ->. now apply Ha.
  - destruct (dict_get "shop" address); [intros [= <-] _; discriminate|].
    destruct (dict_get "building" address) as [b|]; cbn [bind].
    + destruct (py_in_strs b ["house"; "residential"; "apartments"]);
        intros [= <-] _; discriminate.
    + destruct (dict_get "highway" address); intros [= <-] _; discriminate.
Qed.

Lemma classify_unknown (address : dict pyval) :
  dict_get "amenity" address = None ->
  dict_get "shop" address = None ->
  dict_get "building" address = None ->
  dict_get "highway" address = None ->
  _classify_place_type address = Ok (PStr "unknown").
Proof.
  unfold _classify_place_type, dict_mem. now intros -> -> -> ->.
Qed.

(** The place type of a parsed record is the classifier's answer on the
    address of the response. *)
Lemma parse_location_place_type (location : Location) (record : PlaceEnrichment) :
  parse_location location = Ok record ->
  exists labels,
    dict_get_default "address" (PDict []) (location_raw location) = PDict labels /\
    _classify_place_type labels = Ok (place_type record).
Proof.
  unfold parse_location.
  destruct (dict_get_default "address" (PDict []) (location_raw location))
    as [| | | | | |labels];
    try (destruct (extract_place_name _ _); cbn; discriminate).
  destruct (extract_place_name _ _) as [n|]; cbn [bind]; [|discriminate].
  destruct (extract_city (PDict labels)) as [c|]; cbn [bind]; [|discriminate].
  cbn [py_get as_dict bind].
  destruct (_classify_place_type labels) as [t|] eqn:Ht; cbn [bind];
    [|discriminate].
  intros [= <-]. exists labels. split; [reflexivity | exact Ht].
Qed.

Section PlaceType.

Context {F : PyFloat}.

(** C9, as amended. Every record that a fresh enrichment creates is stored
    under the key of the query and has as place type the classifier's
    answer on the address labels of the response: it is not [None] unless
    the amenity label of the response is itself [None], and it is "unknown"
    when the response has no amenity, shop, building or highway label.
    (A record loaded from the cache file has the place type the file gives
    it, [None] included.) *)
Theorem fresh_record_place_type (latitude longitude : float) (force : bool)
    (w : World F) (record : PlaceEnrichment) :
  reaches_provider latitude longitude force w = true ->
  fst (enrich_place latitude longitude force w) = Some record ->
  exists location labels,
    reply_outcome (provider_reply latitude longitude w) = Returns (Some location) /\
    dict_get_default "address" (PDict []) (location_raw location) = PDict labels /\
    dict_get (_get_cache_key latitude longitude)
      (cache (snd (enrich_place latitude longitude force w))) = Some record /\
    _classify_place_type labels = Ok (place_type record) /\
    (dict_get "amenity" labels <> Some PNone -> place_type record <> PNone) /\
    (dict_get "amenity" labels = None -> dict_get "shop" labels = None ->
     dict_get "building" labels = None -> dict_get "highway" labels = None ->
     place_type record = PStr "unknown").
Proof.
  intros Hreach.
  rewrite (enrich_place_reaches _ _ _ _ Hreach).
  rewrite <- provider_reply_rate_limit.
  destruct (reply_outcome (provider_reply latitude longitude (rate_limit w)))
    as [|[loc|]] eqn:E.
  - rewrite (geocode_and_cache_raises _ _ _ _ E). discriminate.
  - rewrite (geocode_and_cache_returns _ _ _ _ E). cbn zeta.
    destruct (parse_location loc) as [r|] eqn:Hp; [|discriminate].
    cbn [fst snd]. intros [= ->].
    destruct (parse_location_place_type _ Hp) as (labels & Hl & Hc).
    exists loc, labels. repeat split; auto.
    + unfold save_cache. cbn.
      destruct (fs_write (rate_limit w)); cbn; apply dict_get_set_same.
    + now apply (classify_not_none labels).
    + intros H1 H2 H3 H4.
      rewrite (classify_unknown labels H1 H2 H3 H4) in Hc. congruence.
  - rewrite (geocode_and_cache_returns _ _ _ _ E). discriminate.
Qed.

End PlaceType.

Lemma fresh_record_place_type_witness :
  let w := empty_world (always joes_reply) in
  let lat : Q := 37 # 1 in
  let lon : Q := - (122 # 1) in
  reaches_provider (F := DecimalFloat) lat lon false w = true /\
  fst (enrich_place (F := DecimalFloat) lat lon false w) = Some joes_record /\
  exists location labels,
    reply_outcome (provider_reply (F := DecimalFloat) lat lon w) =
      Returns (Some location) /\
    dict_get_default "address" (PDict []) (location_raw location) = PDict labels /\
    dict_get (_get_cache_key (F := DecimalFloat) lat lon)
      (cache (snd (enrich_place (F := DecimalFloat) lat lon false w))) =
      Some joes_record /\
    _classify_place_type labels = Ok (place_type joes_record) /\
    (dict_get "amenity" labels <> Some PNone -> place_type joes_record <> PNone) /\
    (dict_get "amenity" labels = None -> dict_get "shop" labels = None ->
     dict_get "building" labels = None -> dict_get "highway" labels = None ->
     place_type joes_record = PStr "unknown").
Proof.
  cbv zeta. split; [reflexivity|]. split; [reflexivity|].
  apply (fresh_record_place_type (F := DecimalFloat)); reflexivity.
Defined.

(** C9 as it is worded fails for a loaded record: the well-formed cache
    file [{"37.0000,-122.0000": {"name": "Home"}}] is read into a store
    whose one record has no place type. *)
Lemma loaded_record_without_place_type :
  let w := PlaceEnricher_init (F := DecimalFloat) 50 1000
             (Document (PDict [("37.0000,-122.0000", PDict [("name", PStr "Home")])]))
             Completes (always joes_reply) in
  exists record,
    dict_get "37.0000,-122.0000" (cache w) = Some record /\
    name record = PStr "Home" /\
    place_type record = PNone /\
    place_type record <> PStr "unknown".
Proof.
  cbv zeta. exists home_record. repeat split. discriminate.
Qed.

(** * Further properties of the enricher *)

Section EnricherComposition.

Context {F : PyFloat}.

(** What a request that yields a record leaves behind. *)
Lemma geocode_and_cache_some (latitude longitude : float) (cache_key : string)
    (w : World F) (record : PlaceEnrichment) :
  fst (geocode_and_cache latitude longitude cache_key w) = Some record ->
  exists location,
    reply_outcome (provider_reply latitude longitude w) = Returns (Some location) /\
    parse_location location = Ok record /\
    cache (snd (geocode_and_cache latitude longitude cache_key w)) =
      dict_set cache_key record (cache w) /\
    cache_file (snd (geocode_and_cache latitude longitude cache_key w)) =
      match fs_write w with
      | Completes =>
          Document (cache_document (dict_set cache_key record (cache w)))
      | FailsBeforeOpen => cache_file w
      | FailsAfterOpen => Unreadable
      end.
Proof.
  destruct (reply_outcome (provider_reply latitude longitude w))
    as [|[loc|]] eqn:E.
  - rewrite (geocode_and_cache_raises _ _ _ _ E). discriminate.
  - rewrite (geocode_and_cache_returns _ _ _ _ E). cbn zeta.
    destruct (parse_location loc) as [r|] eqn:Hp; [|discriminate].
    cbn [fst snd]. intros [= ->]. exists loc.
    unfold save_cache. cbn.
    destruct (fs_write w); cbn; auto.
  - rewrite (geocode_and_cache_returns _ _ _ _ E). discriminate.
Qed.

(** A request changes the store by one assignment under its key, or not
    at all. *)
Lemma geocode_and_cache_store (latitude longitude : float) (cache_key : string)
    (w : World F) :
  cache (snd (geocode_and_cache latitude longitude cache_key w)) = cache w \/
  exists record,
    cache (snd (geocode_and_cache latitude longitude cache_key w)) =
    dict_set cache_key record (cache w).
Proof.
  destruct (fst (geocode_and_cache latitude longitude cache_key w))
    as [r|] eqn:Hr.
  - right. exists r.
    destruct (geocode_and_cache_some _ _ _ _ Hr) as (_ & _ & _ & H & _).
    exact H.
  - left. revert Hr.
    destruct (reply_outcome (provider_reply latitude longitude w))
      as [|[loc|]] eqn:E.
    + now rewrite (geocode_and_cache_raises _ _ _ _ E).
    + rewrite (geocode_and_cache_returns _ _ _ _ E). cbn zeta.
      destruct (parse_location loc); [discriminate | reflexivity].
    + now rewrite (geocode_and_cache_returns _ _ _ _ E).
Qed.

Lemma enrich_place_store (latitude longitude : float) (force : bool)
    (w : World F) :
  cache (snd (enrich_place latitude longitude force w)) = cache w \/
  exists record,
    cache (snd (enrich_place latitude longitude force w)) =
    dict_set (_get_cache_key latitude longitude) record (cache w).
Proof.
  assert (Hg :
    cache (snd (geocode_and_cache latitude longitude
                  (_get_cache_key latitude longitude) (rate_limit w))) = cache w \/
    exists record,
      cache (snd (geocode_and_cache latitude longitude
                    (_get_cache_key latitude longitude) (rate_limit w))) =
      dict_set (_get_cache_key latitude longitude) record (cache w)).
  { destruct (rate_limit_frame w) as (Hc & _). rewrite <- Hc.
    apply geocode_and_cache_store. }
  unfold enrich_place. destruct force; [exact Hg|].
  destruct (dict_get _ (cache w)); [now left|].
  destruct (_find_cached_nearby latitude longitude w) as [r|]; [|exact Hg].
  right. now exists r.
Qed.

(** A returned record is in the store under the key of the query. *)
Lemma enrich_place_result_stored (latitude longitude : float) (force : bool)
    (w : World F) (record : PlaceEnrichment) :
  fst (enrich_place latitude longitude force w) = Some record ->
  dict_get (_get_cache_key latitude longitude)
    (cache (snd (enrich_place latitude longitude force w))) = Some record.
Proof.
  assert (Hg :
    fst (geocode_and_cache latitude longitude
           (_get_cache_key latitude longitude) (rate_limit w)) = Some record ->
    dict_get (_get_cache_key latitude longitude)
      (cache (snd (geocode_and_cache latitude longitude
                     (_get_cache_key latitude longitude) (rate_limit w)))) =
    Some record).
  { intros H. destruct (geocode_and_cache_some _ _ _ _ H) as (_ & _ & _ & -> & _).
    apply dict_get_set_same. }
  unfold enrich_place. destruct force; [exact Hg|].
  destruct (dict_get _ (cache w)) as [hit|] eqn:Hhit.
  - cbn. now intros [= <-].
  - destruct (_find_cached_nearby latitude longitude w) as [r|]; [|exact Hg].
    cbn. intros [= <-]. apply dict_get_set_same.
Qed.

(** X1. Whenever [enrich_place] returns a record, forced or not, that
    record is in the store under the key of the query when the call ends. *)
Theorem enrich_place_returns_stored_record (latitude longitude : float)
    (force : bool) (w : World F) (record : PlaceEnrichment) :
  fst (enrich_place latitude longitude force w) = Some record ->
  dict_get (_get_cache_key latitude longitude)
    (cache (snd (enrich_place latitude longitude force w))) = Some record.
Proof. apply enrich_place_result_stored. Qed.

(** X2. After a call that returned a record, an unforced call for any
    coordinate with the same key, however much later, returns the same
    record and changes nothing: no request, no sleep, no write. *)
Theorem enrich_place_again_is_exact_hit (latitude longitude : float)
    (force : bool) (w : World F) (record : PlaceEnrichment)
    (latitude' longitude' : float) (pause : Q) :
  fst (enrich_place latitude longitude force w) = Some record ->
  _get_cache_key latitude' longitude' = _get_cache_key latitude longitude ->
  enrich_place latitude' longitude' false
    (idle pause (snd (enrich_place latitude longitude force w))) =
  (Some record, idle pause (snd (enrich_place latitude longitude force w))).
Proof.
  intros Hr Hk. apply enrich_place_result_stored in Hr.
  unfold enrich_place at 1. rewrite Hk.
  cbn [idle set_clock cache]. now rewrite Hr.
Qed.

(** X3. A call leaves every entry under another key than that of the
    query as it was: it neither removes nor changes it. *)
Theorem enrich_place_other_entries (latitude longitude : float) (force : bool)
    (w : World F) (k : string) :
  k <> _get_cache_key latitude longitude ->
  dict_get k (cache (snd (enrich_place latitude longitude force w))) =
  dict_get k (cache w).
Proof.
  intros Hk.
  destruct (enrich_place_store latitude longitude force w) as [->|[r ->]].
  - reflexivity.
  - now apply dict_get_set_other.
Qed.

(** The requests of a call. *)
Lemma enrich_place_requests (latitude longitude : float) (force : bool)
    (w : World F) :
  requests_of (events (snd (enrich_place latitude longitude force w))) =
  requests_of (events w) ++
  (if reaches_provider latitude longitude force w
   then [(float_str latitude ++ ", " ++ float_str longitude)%string]
   else []).
Proof.
  destruct (reaches_provider latitude longitude force w) eqn:Hreach.
  - rewrite (enrich_place_reaches _ _ _ _ Hreach).
    destruct (rate_limit_frame w) as (_ & _ & _ & _ & _ & _ & _ & Hq & _).
    unfold geocode_and_cache, geocoder_reverse, save_cache.
    destruct (reply_outcome _) as [|[loc|]]; cbn;
      try (now rewrite requests_of_app, Hq).
    destruct (parse_location loc); cbn; try (now rewrite requests_of_app, Hq).
    destruct (fs_write (rate_limit w)); cbn;
      rewrite ?requests_of_app, Hq; cbn; now rewrite ?app_nil_r.
  - rewrite app_nil_r. revert Hreach.
    unfold reaches_provider, enrich_place, dict_mem.
    destruct force; [discriminate|]. cbn [orb].
    destruct (dict_get _ (cache w)); [reflexivity|].
    destruct (_find_cached_nearby latitude longitude w);
      [reflexivity | discriminate].
Qed.

(** X4. A call sends exactly one request to the provider when it is forced
    or misses both the exact and the proximity lookup, and none otherwise;
    the request is the text of the coordinate, latitude then longitude. *)
Theorem enrich_place_sends_one_request_or_none (latitude longitude : float)
    (force : bool) (w : World F) :
  requests_of (events (snd (enrich_place latitude longitude force w))) =
  requests_of (events w) ++
  (if force ||
      (negb (dict_mem (_get_cache_key latitude longitude) (cache w)) &&
       match _find_cached_nearby latitude longitude w with
       | Some _ => false
       | None => true
       end)
   then [(float_str latitude ++ ", " ++ float_str longitude)%string]
   else []).
Proof. apply enrich_place_requests. Qed.

End EnricherComposition.

(** ** Parsing a response *)

Lemma extract_city_mapping (labels : dict pyval) :
  extract_city (PDict labels) =
  Ok (first_truthy
        [dict_get_default "city" PNone labels; dict_get_default "town" PNone labels]
        (dict_get_default "village" PNone labels)).
Proof.
  unfold extract_city, py_or. cbn [py_get bind first_truthy].
  destruct (truthy (dict_get_default "city" PNone labels)); [reflexivity|].
  destruct (truthy (dict_get_default "town" PNone labels)); reflexivity.
Qed.

(** With strings for the name and the formatted address, extracting the
    name from a mapping does not raise. *)
Lemma extract_place_name_typed (raw : dict pyval) (name_field display_name : string)
    (labels : dict pyval) :
  dict_get_default "name" (PStr "") raw = PStr name_field ->
  dict_get_default "display_name" (PStr "") raw = PStr display_name ->
  exists n, extract_place_name raw (PDict labels) = Ok n.
Proof.
  intros Hn Hd. unfold extract_place_name, py_or. rewrite Hn, Hd.
  cbn [truthy py_isdigit py_get py_first_segment bind].
  destruct (negb (String.eqb name_field "")); cbn [bind].
  - destruct (str_isdigit name_field); [|eauto].
    destruct (truthy (dict_get_default "amenity" PNone labels)); [eauto|].
    destruct (truthy (dict_get_default "shop" PNone labels)); [eauto|].
    destruct (truthy (dict_get_default "building" PNone labels)); [eauto|].
    destruct (truthy (dict_get_default "tourism" PNone labels)); eauto.
  - destruct (truthy (dict_get_default "amenity" PNone labels)); [eauto|].
    destruct (truthy (dict_get_default "shop" PNone labels)); [eauto|].
    destruct (truthy (dict_get_default "building" PNone labels)); [eauto|].
    destruct (truthy (dict_get_default "tourism" PNone labels)); eauto.
Qed.

(** A response whose address is something else than a mapping is not parsed. *)
Lemma parse_location_address_not_mapping (location : Location) :
  (forall labels,
     dict_get_default "address" (PDict []) (location_raw location) <> PDict labels) ->
  exists e, parse_location location = Err e.
Proof.
  intros Hno. unfold parse_location.
  destruct (dict_get_default "address" (PDict []) (location_raw location))
    as [| | | | | |labels];
    try (destruct (extract_place_name _ _); cbn; eauto).
  exfalso. now apply (Hno labels).
Qed.

(** X5. Once the name is extracted, nothing else in the parsing of a
    response with a mapping for its address can raise, and the record is:
    the extracted name; the location's formatted address; as city the first
    truthy of the labels city and town, else whatever the label village
    holds; the labels state, country and postcode ([None] when missing);
    the classifier's answer; and the raw response itself. *)
Theorem parse_location_record (location : Location) (labels : dict pyval)
    (n : pyval) :
  dict_get_default "address" (PDict []) (location_raw location) = PDict labels ->
  extract_place_name (location_raw location) (PDict labels) = Ok n ->
  exists label,
    _classify_place_type labels = Ok label /\
    parse_location location =
    Ok {| name := n;
          address := location_address location;
          city := first_truthy
                    [dict_get_default "city" PNone labels;
                     dict_get_default "town" PNone labels]
                    (dict_get_default "village" PNone labels);
          state := dict_get_default "state" PNone labels;
          country := dict_get_default "country" PNone labels;
          postal_code := dict_get_default "postcode" PNone labels;
          place_type := label;
          raw_data := PDict (location_raw location) |}.
Proof.
  intros Ha Hn. destruct (classify_total labels) as [label Hl].
  exists label. split; [exact Hl|].
  unfold parse_location. rewrite Ha, Hn. cbn [bind].
  rewrite extract_city_mapping. cbn [bind py_get as_dict].
  now rewrite Hl.
Qed.

Lemma parse_location_record_witness :
  let labels :=
    [("amenity", PStr "Joe's Diner"); ("house_number", PStr "123");
     ("road", PStr "Main Street"); ("city", PStr "Santa Cruz");
     ("state", PStr "California"); ("postcode", PStr "95060");
     ("country", PStr "United States")] in
  dict_get_default "address" (PDict []) (location_raw joes_location) = PDict labels /\
  extract_place_name (location_raw joes_location) (PDict labels) =
    Ok (PStr "Joe's Diner") /\
  exists label,
    _classify_place_type labels = Ok label /\
    parse_location joes_location =
    Ok {| name := PStr "Joe's Diner";
          address := location_address joes_location;
          city := PStr "Santa Cruz";
          state := PStr "California";
          country := PStr "United States";
          postal_code := PStr "95060";
          place_type := label;
          raw_data := PDict (location_raw joes_location) |}.
Proof.
  cbv zeta. split; [reflexivity|]. split; [reflexivity|].
  exact (@parse_location_record joes_location _ (PStr "Joe's Diner")
           eq_refl eq_refl).
Defined.

Section EnricherParsing.

Context {F : PyFloat}.

(** X6. A response with strings for its name and formatted address (or
    without them) and a mapping for its address (or without one) always
    yields a record: a call that reaches the provider and gets such a
    response does not return [None]. *)
Theorem enrich_place_typed_response (latitude longitude : float) (force : bool)
    (w : World F) (location : Location) (name_field display_name : string)
    (labels : dict pyval) :
  reaches_provider latitude longitude force w = true ->
  reply_outcome (provider_reply latitude longitude w) = Returns (Some location) ->
  dict_get_default "name" (PStr "") (location_raw location) = PStr name_field ->
  dict_get_default "display_name" (PStr "") (location_raw location) =
    PStr display_name ->
  dict_get_default "address" (PDict []) (location_raw location) = PDict labels ->
  exists record,
    parse_location location = Ok record /\
    fst (enrich_place latitude longitude force w) = Some record.
Proof.
  intros Hreach Hout Hn Hd Ha.
  destruct (extract_place_name_typed _ labels Hn Hd) as [n Hname].
  destruct (classify_total labels) as [label Hl].
  assert (Hp : exists record, parse_location location = Ok record).
  { unfold parse_location. rewrite Ha, Hname. cbn [bind].
    rewrite extract_city_mapping. cbn [bind py_get as_dict].
    rewrite Hl. cbn [bind]. eauto. }
  destruct Hp as [record Hp]. exists record. split; [exact Hp|].
  rewrite (enrich_place_reaches _ _ _ _ Hreach).
  rewrite <- provider_reply_rate_limit in Hout.
  rewrite (geocode_and_cache_returns _ _ _ _ Hout). cbn zeta.
  now rewrite Hp.
Qed.

(** X7. A response whose address is present but no mapping is not cached:
    the call returns [None], the store and the cache file stay as they
    were, and the request still counts for the rate limiter. *)
Theorem enrich_place_unparsable_response (latitude longitude : float)
    (force : bool) (w : World F) (location : Location) :
  reaches_provider latitude longitude force w = true ->
  reply_outcome (provider_reply latitude longitude w) = Returns (Some location) ->
  (forall labels,
     dict_get_default "address" (PDict []) (location_raw location) <> PDict labels) ->
  fst (enrich_place latitude longitude force w) = None /\
  cache (snd (enrich_place latitude longitude force w)) = cache w /\
  cache_file (snd (enrich_place latitude longitude force w)) = cache_file w /\
  last_request_time (snd (enrich_place latitude longitude force w)) =
  clock (rate_limit w) + reply_latency (provider_reply latitude longitude w).
Proof.
  intros Hreach Hout Hno.
  destruct (parse_location_address_not_mapping location Hno) as [e He].
  rewrite (enrich_place_reaches _ _ _ _ Hreach).
  rewrite <- provider_reply_rate_limit in Hout |- *.
  destruct (rate_limit_frame w) as (Hc & _ & _ & _ & Hf & _).
  rewrite (geocode_and_cache_returns _ _ _ _ Hout). cbn zeta.
  rewrite He. cbn. auto.
Qed.

(** X8. When the write of the cache file fails, a fresh enrichment is
    returned and kept in memory all the same. If the write fails before
    the file is opened, the cache file stays as it was; if it fails after
    the file was opened for writing, the file is left without readable
    content, and an enricher started from it begins with an empty store. *)
Theorem enrich_place_survives_failed_write (latitude longitude : float)
    (force : bool) (w : World F) (record : PlaceEnrichment) (radius : float)
    (now : Q) (writes : write_outcome)
    (service : list string -> string -> reply) :
  fs_writable w = false ->
  reaches_provider latitude longitude force w = true ->
  fst (enrich_place latitude longitude force w) = Some record ->
  cache (snd (enrich_place latitude longitude force w)) =
    dict_set (_get_cache_key latitude longitude) record (cache w) /\
  cache_file (snd (enrich_place latitude longitude force w)) =
    match fs_write w with
    | FailsAfterOpen => Unreadable
    | _ => cache_file w
    end /\
  save_count (events (snd (enrich_place latitude longitude force w))) =
    save_count (events w) /\
  (fs_write w = FailsAfterOpen ->
   cache (PlaceEnricher_init radius now
            (cache_file (snd (enrich_place latitude longitude force w)))
            writes service) = []).
Proof.
  intros Hfs Hreach.
  rewrite (enrich_place_reaches _ _ _ _ Hreach).
  destruct (rate_limit_frame w) as (Hc & _ & _ & _ & Hf & Hw & _ & _ & _ & Hs).
  intros Hr.
  destruct (geocode_and_cache_some _ _ _ _ Hr) as (loc & Hout & Hp & Hcache & Hfile).
  rewrite Hw, Hf in Hfile. rewrite Hc in Hcache.
  assert (Hsave :
    save_count (events (snd (geocode_and_cache latitude longitude
                               (_get_cache_key latitude longitude) (rate_limit w)))) =
    save_count (events w)).
  { rewrite (geocode_and_cache_returns _ _ _ _ Hout). cbn zeta.
    rewrite Hp. unfold save_cache. cbn. rewrite Hw.
    unfold fs_writable in Hfs.
    destruct (fs_write w); try discriminate Hfs; cbn;
      rewrite save_count_app; cbn; now rewrite Nat.add_0_r. }
  unfold fs_writable in Hfs.
  destruct (fs_write w); try discriminate Hfs;
    (split; [exact Hcache|]; split; [exact Hfile|]; split; [exact Hsave|]).
  - discriminate.
  - intros _. rewrite Hfile. reflexivity.
Qed.

(** X9. After a fresh enrichment on a file system that takes the write, an
    enricher started from the cache file, with any radius, clock and
    provider, holds the store the call left in memory. *)
Theorem enrich_place_restart (latitude longitude : float) (force : bool)
    (w : World F) (record : PlaceEnrichment) (radius : float) (now : Q)
    (writable : write_outcome) (service : list string -> string -> reply) :
  NoDup (dict_keys (cache w)) ->
  fs_writable w = true ->
  reaches_provider latitude longitude force w = true ->
  fst (enrich_place latitude longitude force w) = Some record ->
  cache (PlaceEnricher_init radius now
           (cache_file (snd (enrich_place latitude longitude force w)))
           writable service) =
  cache (snd (enrich_place latitude longitude force w)).
Proof.
  intros Hnd Hfs Hreach.
  rewrite (enrich_place_reaches _ _ _ _ Hreach).
  destruct (rate_limit_frame w) as (Hc & _ & _ & _ & _ & Hw & _).
  intros Hr.
  destruct (geocode_and_cache_some _ _ _ _ Hr) as (_ & _ & _ & Hcache & Hfile).
  rewrite Hw in Hfile. unfold fs_writable in Hfs.
  destruct (fs_write w); try discriminate Hfs.
  rewrite Hfile, Hcache, Hc.
  unfold PlaceEnricher_init, load_cache. cbn [cache_file].
  rewrite read_cache_document; [reflexivity|].
  now apply dict_set_NoDup.
Qed.

End EnricherParsing.

Lemma enrich_place_returns_stored_record_witness :
  let w := home_world (always joes_reply) in
  let lat : Q := 370003 # 10000 in
  let lon : Q := - (122 # 1) in
  fst (enrich_place (F := DecimalFloat) lat lon false w) = Some home_record /\
  dict_get (_get_cache_key (F := DecimalFloat) lat lon)
    (cache (snd (enrich_place (F := DecimalFloat) lat lon false w))) =
  Some home_record.
Proof.
  cbv zeta. split; [reflexivity|].
  apply (enrich_place_returns_stored_record (F := DecimalFloat)). reflexivity.
Defined.

Lemma enrich_place_again_is_exact_hit_witness :
  let w := empty_world (always joes_reply) in
  let lat : Q := 37 # 1 in
  let lon : Q := - (122 # 1) in
  let lat' : Q := 3700004 # 100000 in
  let w1 := idle 3600 (snd (enrich_place (F := DecimalFloat) lat lon true w)) in
  fst (enrich_place (F := DecimalFloat) lat lon true w) = Some joes_record /\
  _get_cache_key (F := DecimalFloat) lat' lon =
    _get_cache_key (F := DecimalFloat) lat lon /\
  enrich_place (F := DecimalFloat) lat' lon false w1 = (Some joes_record, w1).
Proof.
  cbv zeta. split; [reflexivity|]. split; [reflexivity|].
  apply (enrich_place_again_is_exact_hit (F := DecimalFloat)); reflexivity.
Defined.

Lemma enrich_place_other_entries_witness :
  let w := home_world (always joes_reply) in
  let lat : Q := 375 # 10 in
  let lon : Q := - (122 # 1) in
  "37.0000,-122.0000"%string <> _get_cache_key (F := DecimalFloat) lat lon /\
  dict_get "37.0000,-122.0000"
    (cache (snd (enrich_place (F := DecimalFloat) lat lon true w))) =
  dict_get "37.0000,-122.0000" (cache w).
Proof.
  cbv zeta.
  assert (H : "37.0000,-122.0000"%string <>
              _get_cache_key (F := DecimalFloat) (375 # 10) (- (122 # 1))).
  { vm_compute. discriminate. }
  split; [exact H|].
  apply (enrich_place_other_entries (F := DecimalFloat)). exact H.
Defined.

Lemma enrich_place_typed_response_witness :
  let w := empty_world (always joes_reply) in
  let lat : Q := 37 # 1 in
  let lon : Q := - (122 # 1) in
  reaches_provider (F := DecimalFloat) lat lon false w = true /\
  reply_outcome (provider_reply (F := DecimalFloat) lat lon w) =
    Returns (Some joes_location) /\
  exists record,
    parse_location joes_location = Ok record /\
    fst (enrich_place (F := DecimalFloat) lat lon false w) = Some record.
Proof.
  cbv zeta. split; [reflexivity|]. split; [reflexivity|].
  apply (enrich_place_typed_response (F := DecimalFloat)
           (37 # 1) (- (122 # 1)) false (empty_world (always joes_reply))
           (location := joes_location) (name_field := "123")
           (display_name :=
              "Joe's Diner, 123, Main Street, Santa Cruz, California, 95060, United States")
           (labels :=
              [("amenity", PStr "Joe's Diner"); ("house_number", PStr "123");
               ("road", PStr "Main Street"); ("city", PStr "Santa Cruz");
               ("state", PStr "California"); ("postcode", PStr "95060");
               ("country", PStr "United States")]));
    reflexivity.
Defined.

Lemma enrich_place_unparsable_response_witness :
  let w := home_world (always flat_reply) in
  let lat : Q := 375 # 10 in
  let lon : Q := - (122 # 1) in
  reaches_provider (F := DecimalFloat) lat lon false w = true /\
  reply_outcome (provider_reply (F := DecimalFloat) lat lon w) =
    Returns (Some flat_location) /\
  fst (enrich_place (F := DecimalFloat) lat lon false w) = None /\
  cache (snd (enrich_place (F := DecimalFloat) lat lon false w)) = cache w /\
  cache_file (snd (enrich_place (F := DecimalFloat) lat lon false w)) = cache_file w /\
  last_request_time (snd (enrich_place (F := DecimalFloat) lat lon false w)) =
  clock (rate_limit w) + reply_latency (provider_reply (F := DecimalFloat) lat lon w).
Proof.
  cbv zeta. split; [reflexivity|]. split; [reflexivity|].
  apply (enrich_place_unparsable_response (F := DecimalFloat)
           (375 # 10) (- (122 # 1)) false (home_world (always flat_reply))
           (location := flat_location));
    [reflexivity | reflexivity |].
  intros labels. vm_compute. discriminate.
Defined.

Lemma enrich_place_survives_failed_write_witness :
  let w := full_disk_world (always joes_reply) in
  let lat : Q := 375 # 10 in
  let lon : Q := - (122 # 1) in
  fs_writable w = false /\
  reaches_provider (F := DecimalFloat) lat lon false w = true /\
  fst (enrich_place (F := DecimalFloat) lat lon false w) = Some joes_record /\
  cache_file w = home_file /\
  cache (snd (enrich_place (F := DecimalFloat) lat lon false w)) =
    dict_set (_get_cache_key (F := DecimalFloat) lat lon) joes_record (cache w) /\
  cache_file (snd (enrich_place (F := DecimalFloat) lat lon false w)) =
    match fs_write w with
    | FailsAfterOpen => Unreadable
    | _ => cache_file w
    end /\
  save_count (events (snd (enrich_place (F := DecimalFloat) lat lon false w))) =
    save_count (events w) /\
  (fs_write w = FailsAfterOpen ->
   cache (PlaceEnricher_init (F := DecimalFloat) 50 2000
            (cache_file (snd (enrich_place (F := DecimalFloat) lat lon false w)))
            Completes (always joes_reply)) = []).
Proof.
  cbv zeta. split; [reflexivity|]. split; [reflexivity|]. split; [reflexivity|].
  split; [reflexivity|].
  apply (enrich_place_survives_failed_write (F := DecimalFloat)); reflexivity.
Defined.

(** A write that fails before the file is opened leaves the file alone:
    here there was none, and there is none afterwards. *)
Example failed_write_before_open :
  let r := enrich_place (F := DecimalFloat) (37 # 1) (- (122 # 1)) false
             (readonly_world (always joes_reply)) in
  fst r = Some joes_record /\
  cache (snd r) = [("37.0000,-122.0000", joes_record)] /\
  cache_file (snd r) = Absent.
Proof. cbv zeta. repeat split. Qed.

Lemma enrich_place_restart_witness :
  let w := home_world (always joes_reply) in
  let lat : Q := 375 # 10 in
  let lon : Q := - (122 # 1) in
  NoDup (dict_keys (cache w)) /\
  fs_writable w = true /\
  reaches_provider (F := DecimalFloat) lat lon false w = true /\
  fst (enrich_place (F := DecimalFloat) lat lon false w) = Some joes_record /\
  cache (PlaceEnricher_init (F := DecimalFloat) 25 2000
           (cache_file (snd (enrich_place (F := DecimalFloat) lat lon false w)))
           FailsBeforeOpen (always refused_reply)) =
  cache (snd (enrich_place (F := DecimalFloat) lat lon false w)).
Proof.
  cbv zeta.
  assert (Hnd : NoDup (dict_keys (cache (home_world (always joes_reply))))).
  { apply (load_cache_NoDup (F := DecimalFloat)). }
  split; [exact Hnd|]. split; [reflexivity|]. split; [reflexivity|].
  split; [reflexivity|].
  apply (enrich_place_restart (F := DecimalFloat)) with (record := joes_record);
    [exact Hnd | reflexivity | reflexivity | reflexivity].
Defined.

(** ** Loading the cache file *)

Lemma dict_comprehension_try_fails {V W : Type} (f : string -> V -> result W)
    (d : dict V) (acc : dict W) (k : string) (v : V) (e : exn) :
  In (k, v) d -> f k v = Err e ->
  exists e', dict_comprehension_try f d acc = Err e'.
Proof.
  revert acc. induction d as [|[k0 v0] d IH]; intros acc Hin Hf; [destruct Hin|].
  cbn [dict_comprehension_try].
  destruct Hin as [[= -> ->]|Hin].
  - rewrite Hf. cbn. eauto.
  - destruct (f k0 v0); cbn [bind]; [|eauto].
    now apply IH.
Qed.

Lemma PlaceEnrichment_kwargs_unknown_key (d : dict pyval) (key : string) :
  In key (dict_keys d) -> ~ In key field_names ->
  PlaceEnrichment_kwargs (PDict d) = Err TypeError.
Proof.
  intros Hin Hno. unfold PlaceEnrichment_kwargs.
  destruct (forallb _ (dict_keys d)) eqn:E; [|reflexivity].
  exfalso. rewrite forallb_forall in E. specialize (E key Hin).
  apply existsb_exists in E as [f [Hf He]].
  apply String.eqb_eq in He. subst. contradiction.
Qed.

Section Loading.

Context {F : PyFloat}.

(** X10. Loading is all or nothing: if one entry of the file is no
    mapping, or has a key that is not a field of the record, the whole
    store starts empty, the well-formed entries included. *)
Theorem load_cache_all_or_nothing (w : World F) (items : dict pyval)
    (k : string) (v : pyval) :
  cache_file w = Document (PDict items) ->
  In (k, v) items ->
  (forall d, v <> PDict d) \/
  (exists d key, v = PDict d /\ In key (dict_keys d) /\ ~ In key field_names) ->
  cache (load_cache w) = [].
Proof.
  intros Hfile Hin Hbad.
  assert (Herr : PlaceEnrichment_kwargs v = Err TypeError).
  { destruct Hbad as [Hno|(d & key & -> & Hk & Hf)].
    - destruct v; try reflexivity. exfalso. now apply (Hno d).
    - now apply PlaceEnrichment_kwargs_unknown_key with (key := key). }
  unfold load_cache. rewrite Hfile. unfold read_cache. cbn [py_items bind].
  destruct (@dict_comprehension_try_fails _ _
              (fun _ value => PlaceEnrichment_kwargs value) items [] k v
              TypeError Hin Herr)
    as [e' ->].
  reflexivity.
Qed.

(** X11. A file whose entries are all mappings over field names is loaded
    entry by entry, in the order of the file: each key gets the record
    built from its mapping. *)
Theorem load_cache_entry_by_entry (w : World F) (items : dict pyval) :
  cache_file w = Document (PDict items) ->
  NoDup (dict_keys items) ->
  (forall k v, In (k, v) items -> exists r, PlaceEnrichment_kwargs v = Ok r) ->
  Forall2 (fun kv kr => fst kv = fst kr /\
                        PlaceEnrichment_kwargs (snd kv) = Ok (snd kr))
          items (cache (load_cache w)).
Proof.
  intros Hfile Hnd Hok.
  unfold load_cache. rewrite Hfile. unfold read_cache. cbn [py_items bind].
  rewrite dict_comprehension_try_acc
    with (g := fun v => match PlaceEnrichment_kwargs v with
                        | Ok r => r
                        | Err _ => PlaceEnrichment_default
                        end).
  - cbn [app set_cache cache].
    clear Hnd Hfile. induction items as [|[k v] items IH]; cbn [map].
    + constructor.
    + constructor.
      * cbn [fst snd]. split; [reflexivity|].
        destruct (Hok k v (or_introl eq_refl)) as [r ->]. reflexivity.
      * apply IH. intros k0 v0 H0. apply (Hok k0 v0). now right.
  - intros k v Hin. destruct (Hok k v Hin) as [r ->]. reflexivity.
  - exact Hnd.
Qed.

End Loading.

Lemma load_cache_all_or_nothing_witness :
  let items :=
    [("37.0000,-122.0000", PDict [("name", PStr "Home")]);
     ("36.9741,-122.0308", PDict [("label", PStr "Work")])] in
  let w := PlaceEnricher_init (F := DecimalFloat) 50 1000
             (Document (PDict items)) Completes (always joes_reply) in
  cache_file w = Document (PDict items) /\
  In ("36.9741,-122.0308", PDict [("label", PStr "Work")]) items /\
  cache (load_cache w) = [].
Proof.
  cbv zeta. split; [reflexivity|]. split; [right; left; reflexivity|].
  apply (load_cache_all_or_nothing (F := DecimalFloat))
    with (k := "36.9741,-122.0308"%string) (v := PDict [("label", PStr "Work")])
         (items := [("37.0000,-122.0000", PDict [("name", PStr "Home")]);
                    ("36.9741,-122.0308", PDict [("label", PStr "Work")])]).
  - reflexivity.
  - right. left. reflexivity.
  - right. exists [("label", PStr "Work")], "label"%string.
    split; [reflexivity|]. split; [left; reflexivity|].
    cbn. intros H. repeat (destruct H as [H|H]; [discriminate H|]). exact H.
Defined.

Lemma load_cache_entry_by_entry_witness :
  let items := [("37.0000,-122.0000", PDict [("name", PStr "Home")])] in
  let w := home_world (always joes_reply) in
  cache_file w = Document (PDict items) /\
  NoDup (dict_keys items) /\
  Forall2 (fun kv kr => fst kv = fst kr /\
                        PlaceEnrichment_kwargs (snd kv) = Ok (snd kr))
          items (cache (load_cache w)).
Proof.
  cbv zeta.
  assert (Hnd : NoDup ["37.0000,-122.0000"%string]).
  { constructor; [intros [] | constructor]. }
  split; [reflexivity|]. split; [exact Hnd|].
  apply (load_cache_entry_by_entry (F := DecimalFloat)); [reflexivity | exact Hnd |].
  intros k v [[= <- <-]|[]]. eexists. reflexivity.
Defined.

(** ** Spacing of consecutive requests *)

Section Spacing.

Context {F : PyFloat}.

(** X12. When the request of a call returns, with a location or with
    none, and the next call that reaches the provider follows after any
    pause, the log shows the two requests issued at least the minimum
    interval apart. *)
Theorem consecutive_requests_spaced (latitude1 longitude1 : float)
    (force1 : bool) (latitude2 longitude2 : float) (force2 : bool)
    (w : World F) (pause : Q) :
  reaches_provider latitude1 longitude1 force1 w = true ->
  reply_outcome (provider_reply latitude1 longitude1 w) <> Raises ->
  0 <= reply_latency (provider_reply latitude1 longitude1 w) ->
  reaches_provider latitude2 longitude2 force2
    (idle pause (snd (enrich_place latitude1 longitude1 force1 w))) = true ->
  exists t1 t2,
    issue_times
      (events (snd (enrich_place latitude2 longitude2 force2
                      (idle pause (snd (enrich_place latitude1 longitude1 force1 w))))))
    = issue_times (events w) ++ [t1; t2] /\
    t1 + min_request_interval w <= t2.
Proof.
  intros Hr1 Hout Hlat Hr2.
  exists (clock (rate_limit w)),
         (clock (rate_limit (idle pause (snd (enrich_place latitude1 longitude1 force1 w))))).
  split.
  - rewrite (enrich_place_issue_time _ _ _ _ Hr2).
    cbn [idle set_clock events].
    rewrite (enrich_place_issue_time _ _ _ _ Hr1).
    now rewrite <- app_assoc.
  - now apply returned_request_spaces_next.
Qed.

End Spacing.

Lemma consecutive_requests_spaced_witness :
  let w := empty_world (always no_result_reply) in
  let lat : Q := 375 # 10 in
  let lon : Q := - (122 # 1) in
  let w1 := idle 0 (snd (enrich_place (F := DecimalFloat) lat lon true w)) in
  reaches_provider (F := DecimalFloat) lat lon true w = true /\
  reply_outcome (provider_reply (F := DecimalFloat) lat lon w) <> Raises /\
  0 <= reply_latency (provider_reply (F := DecimalFloat) lat lon w) /\
  reaches_provider (F := DecimalFloat) lat lon true w1 = true /\
  exists t1 t2,
    issue_times (events (snd (enrich_place (F := DecimalFloat) lat lon true w1))) =
    issue_times (events w) ++ [t1; t2] /\
    t1 + min_request_interval w <= t2.
Proof.
  cbv zeta.
  assert (Hout : reply_outcome (provider_reply (F := DecimalFloat) (375 # 10)
                   (- (122 # 1)) (empty_world (always no_result_reply))) <> Raises).
  { vm_compute. discriminate. }
  assert (Hlat : 0 <= reply_latency (provider_reply (F := DecimalFloat) (375 # 10)
                   (- (122 # 1)) (empty_world (always no_result_reply)))).
  { vm_compute. discriminate. }
  split; [reflexivity|]. split; [exact Hout|]. split; [exact Hlat|].
  split; [reflexivity|].
  apply (consecutive_requests_spaced (F := DecimalFloat));
    [reflexivity | exact Hout | exact Hlat | reflexivity].
Defined.

(** ** Keys *)

Lemma split_char_no_sep (sep : ascii) (s : string) :
  ~ In sep (list_ascii_of_string s) -> split_char sep s = [s].
Proof.
  induction s as [|c s IH]; cbn [split_char list_ascii_of_string]; intros H.
  - reflexivity.
  - destruct (Ascii.eqb_spec c sep) as [->|Hne].
    + exfalso. apply H. now left.
    + rewrite IH; [reflexivity|]. intros Hin. apply H. now right.
Qed.

Lemma split_char_append (sep : ascii) (a b : string) :
  ~ In sep (list_ascii_of_string a) ->
  split_char sep (a ++ String sep b)%string = a :: split_char sep b.
Proof.
  induction a as [|c a IH]; cbn [split_char list_ascii_of_string append];
    intros H.
  - now rewrite Ascii.eqb_refl.
  - destruct (Ascii.eqb_spec c sep) as [->|Hne].
    + exfalso. apply H. now left.
    + rewrite IH; [reflexivity|]. intros Hin. apply H. now right.
Qed.

Section Keys.

Context {F : PyFloat}.

(** X13. When the four-decimal text of a float has no comma in it, the
    key of a coordinate splits back into exactly the two texts it was made
    of, so the proximity scan reads such a key as the floats these two
    texts denote (and passes over it only if one of them is no float). *)
Theorem cache_key_splits_back (latitude longitude : float) :
  ~ In ","%char (list_ascii_of_string (format_4f latitude)) ->
  ~ In ","%char (list_ascii_of_string (format_4f longitude)) ->
  split_comma (_get_cache_key latitude longitude) =
    [format_4f latitude; format_4f longitude] /\
  unpack_two_floats (split_comma (_get_cache_key latitude longitude)) =
    (a <- float_of_str (format_4f latitude) ;;
     b <- float_of_str (format_4f longitude) ;;
     Ok (a, b)).
Proof.
  intros Hlat Hlon.
  assert (Hs : split_comma (_get_cache_key latitude longitude) =
               [format_4f latitude; format_4f longitude]).
  { unfold split_comma, _get_cache_key. cbn [append].
    rewrite split_char_append by exact Hlat.
    now rewrite split_char_no_sep by exact Hlon. }
  split; [exact Hs|]. rewrite Hs. reflexivity.
Qed.

End Keys.

Lemma cache_key_splits_back_witness :
  let lat : Q := 370003 # 10000 in
  let lon : Q := - (122 # 1) in
  ~ In ","%char (list_ascii_of_string (format_4f (PyFloat := DecimalFloat) lat)) /\
  ~ In ","%char (list_ascii_of_string (format_4f (PyFloat := DecimalFloat) lon)) /\
  split_comma (_get_cache_key (F := DecimalFloat) lat lon) =
    [format_4f (PyFloat := DecimalFloat) lat; format_4f (PyFloat := DecimalFloat) lon] /\
  unpack_two_floats (F := DecimalFloat)
    (split_comma (_get_cache_key (F := DecimalFloat) lat lon)) =
    (a <- float_of_str (PyFloat := DecimalFloat)
            (format_4f (PyFloat := DecimalFloat) lat) ;;
     b <- float_of_str (PyFloat := DecimalFloat)
            (format_4f (PyFloat := DecimalFloat) lon) ;;
     Ok (a, b)).
Proof.
  cbv zeta.
  assert (H1 : ~ In ","%char (list_ascii_of_string
                 (format_4f (PyFloat := DecimalFloat) (370003 # 10000)))).
  { vm_compute. intros H. repeat (destruct H as [H|H]; [discriminate H|]). exact H. }
  assert (H2 : ~ In ","%char (list_ascii_of_string
                 (format_4f (PyFloat := DecimalFloat) (- (122 # 1))))).
  { vm_compute. intros H. repeat (destruct H as [H|H]; [discriminate H|]). exact H. }
  split; [exact H1|]. split; [exact H2|].
  apply (cache_key_splits_back (F := DecimalFloat)); assumption.
Defined.

(** * The enrichment script *)

Lemma firstn_length_le {A : Type} (n : nat) (l : list A) :
  (length (firstn n l) <= n)%nat.
Proof. rewrite length_firstn. apply Nat.le_min_l. Qed.

(** With a count of at least zero the cap is a prefix of that length. *)
Lemma limit_places_takes_nonneg {A : Type} (max_calls : Z) (rows : list A) :
  (0 <= max_calls)%Z ->
  limit_places max_calls rows = firstn (Z.to_nat max_calls) rows.
Proof.
  intros Hpos. unfold limit_places, py_slice_to.
  destruct (Z.ltb_spec max_calls (Z.of_nat (length rows))) as [Hlt|Hge].
  - destruct (Z.leb_spec 0 max_calls); [reflexivity | lia].
  - symmetry. apply firstn_all2. lia.
Qed.

(** X14. The cap on the places: with a count of at least zero the run
    takes the first [max_calls] rows (all of them if there are fewer); with
    a negative count it does not take none but all rows except the last
    [- max_calls]. *)
Theorem limit_places_takes {A : Type} (max_calls : Z) (rows : list A) :
  limit_places max_calls rows =
  firstn (if (0 <=? max_calls)%Z then Z.to_nat max_calls
          else length rows - Z.to_nat (- max_calls)) rows.
Proof.
  unfold limit_places, py_slice_to.
  destruct (Z.ltb_spec max_calls (Z.of_nat (length rows))) as [Hlt|Hge].
  - destruct (Z.leb_spec 0 max_calls) as [Hpos|Hneg]; [reflexivity|].
    f_equal. lia.
  - destruct (Z.leb_spec 0 max_calls) as [Hpos|Hneg]; [|lia].
    symmetry. apply firstn_all2. lia.
Qed.

(** X15. What the script stores as address only has truthy values: a
    field that is [None] or empty gets no key; and the address parameter is
    [None] exactly when the formatted address, city, state, country and
    postal code of the record are all falsy. *)
Theorem address_data_truthy (enrichment : PlaceEnrichment) :
  (forall k v, In (k, v) (address_data enrichment) -> truthy v = true) /\
  (address_param enrichment = PNone <->
   truthy (address enrichment) = false /\
   truthy (city enrichment) = false /\
   truthy (state enrichment) = false /\
   truthy (country enrichment) = false /\
   truthy (postal_code enrichment) = false).
Proof.
  unfold address_param, address_data.
  destruct (truthy (address enrichment)) eqn:E1;
  destruct (truthy (city enrichment)) eqn:E2;
  destruct (truthy (state enrichment)) eqn:E3;
  destruct (truthy (country enrichment)) eqn:E4;
  destruct (truthy (postal_code enrichment)) eqn:E5;
  cbn; (split;
    [ intros k v H;
      repeat (destruct H as [H|H]; [injection H as _ <-; assumption|]);
      destruct H
    | split; [intros H; try discriminate H; repeat split
             | intros (H1 & H2 & H3 & H4 & H5);
               try discriminate; reflexivity] ]).
Qed.

Section EnrichScriptProperties.

Context {F : PyFloat}.

(** The counters one turn of the loop steps. *)
Lemma enrich_one_counts (force : bool) (st : Tally * World F) (place : PlaceRow) :
  let r := enrich_place (place_latitude place) (place_longitude place) force
             (snd st) in
  snd (enrich_one force st place) = snd r /\
  match fst r with
  | Some _ =>
      failed_count (fst (enrich_one force st place)) = failed_count (fst st) /\
      if force
      then enriched_count (fst (enrich_one force st place)) =
             S (enriched_count (fst st)) /\
           cached_count (fst (enrich_one force st place)) = cached_count (fst st)
      else enriched_count (fst (enrich_one force st place)) =
             enriched_count (fst st) /\
           cached_count (fst (enrich_one force st place)) =
             S (cached_count (fst st))
  | None =>
      failed_count (fst (enrich_one force st place)) = S (failed_count (fst st)) /\
      enriched_count (fst (enrich_one force st place)) = enriched_count (fst st) /\
      cached_count (fst (enrich_one force st place)) = cached_count (fst st)
  end.
Proof.
  cbv zeta. unfold enrich_one.
  pose proof (enrich_place_result_stored (place_latitude place)
                (place_longitude place) force (snd st)) as Hs.
  destruct (enrich_place (place_latitude place) (place_longitude place) force
              (snd st)) as [[e|] w'].
  - cbn [fst snd] in *. specialize (Hs e eq_refl).
    unfold dict_mem. rewrite Hs. destruct force; cbn; auto.
  - cbn. auto.
Qed.

Lemma enrich_all_from (force : bool) (places : list PlaceRow)
    (st : Tally * World F) :
  let out := fold_left (enrich_one force) places st in
  (enriched_count (fst out) + cached_count (fst out) + failed_count (fst out) =
   enriched_count (fst st) + cached_count (fst st) + failed_count (fst st) +
   length places)%nat /\
  (if force then cached_count (fst out) = cached_count (fst st)
   else enriched_count (fst out) = enriched_count (fst st)) /\
  (length (requests_of (events (snd out))) <=
   length (requests_of (events (snd st))) + length places)%nat /\
  (force = true ->
   length (requests_of (events (snd out))) =
   length (requests_of (events (snd st))) + length places)%nat.
Proof.
  revert st. induction places as [|p places IH]; intros st; cbn [fold_left length].
  - cbv zeta. destruct force; repeat split; auto; lia.
  - specialize (IH (enrich_one force st p)). cbv zeta in *.
    destruct IH as (Hsum & Hflag & Hle & Heq).
    pose proof (enrich_one_counts force st p) as Hone. cbv zeta in Hone.
    destruct Hone as [Hw Hc].
    pose proof (enrich_place_requests (place_latitude p) (place_longitude p)
                  force (snd st)) as Hreq.
    rewrite <- Hw in Hreq.
    assert (Hlen :
      (length (requests_of (events (snd (enrich_one force st p)))) <=
       S (length (requests_of (events (snd st)))))%nat /\
      (force = true ->
       length (requests_of (events (snd (enrich_one force st p)))) =
       S (length (requests_of (events (snd st)))))).
    { rewrite Hreq, length_app. split.
      - destruct (reaches_provider _ _ force (snd st)); cbn; lia.
      - intros ->. cbn. lia. }
    destruct Hlen as [Hlen1 Hlen2].
    repeat split.
    + destruct (fst (enrich_place (place_latitude p) (place_longitude p) force
                       (snd st))).
      * destruct Hc as [Hf Hc]. destruct force; lia.
      * lia.
    + destruct (fst (enrich_place (place_latitude p) (place_longitude p) force
                       (snd st))).
      * destruct Hc as [Hf Hc]. destruct force; destruct Hc; congruence.
      * destruct force; destruct Hc as (_ & ? & ?); congruence.
    + lia.
    + intros Hforce. rewrite (Heq Hforce), (Hlen2 Hforce). lia.
Qed.

(** X16. A run without [--force] reports no new API call at all: every
    place that yields a record is counted as "from cache", also when the
    record was fetched from the provider in that very turn, because the
    test for the key is made after the call has stored it. The three
    counters add up to the number of places. *)
Theorem unforced_run_counts_no_api_call (places : list PlaceRow) (w : World F) :
  enriched_count (fst (enrich_all false places w)) = 0%nat /\
  (cached_count (fst (enrich_all false places w)) +
   failed_count (fst (enrich_all false places w)) = length places)%nat.
Proof.
  pose proof (enrich_all_from false places (no_tally, w)) as H.
  cbv zeta in H. destruct H as (Hsum & Hflag & _).
  unfold enrich_all. cbn [fst snd no_tally enriched_count cached_count
                          failed_count] in *.
  split; [exact Hflag | lia].
Qed.

(** X17. A run with [--force] sends one request for every place, cached
    or not, counts no place as "from cache", and its counters of fetched
    and failed places add up to the number of places. *)
Theorem forced_run_requests_every_place (places : list PlaceRow) (w : World F) :
  length (requests_of (events (snd (enrich_all true places w)))) =
    (length (requests_of (events w)) + length places)%nat /\
  cached_count (fst (enrich_all true places w)) = 0%nat /\
  (enriched_count (fst (enrich_all true places w)) +
   failed_count (fst (enrich_all true places w)) = length places)%nat.
Proof.
  pose proof (enrich_all_from true places (no_tally, w)) as H.
  cbv zeta in H. destruct H as (Hsum & Hflag & _ & Heq).
  unfold enrich_all. cbn [fst snd no_tally enriched_count cached_count
                          failed_count] in *.
  split; [now apply Heq|]. split; [exact Hflag | lia].
Qed.

(** X18. The call budget: with [--max-calls] at least zero, a run sends at
    most that many requests to the provider, whatever the rows, the store
    and the provider's answers. *)
Theorem run_keeps_call_budget (max_calls : Z) (force : bool)
    (rows : list PlaceRow) (w : World F) :
  (0 <= max_calls)%Z ->
  (Z.of_nat (length (requests_of (events (snd (enrich_run max_calls force rows w)))))
   <= Z.of_nat (length (requests_of (events w))) + max_calls)%Z.
Proof.
  intros Hpos. unfold enrich_run, enrich_all.
  pose proof (enrich_all_from force (limit_places max_calls rows) (no_tally, w))
    as H.
  cbv zeta in H. destruct H as (_ & _ & Hle & _). cbn [snd] in Hle.
  assert (Hlim : (length (limit_places max_calls rows) <= Z.to_nat max_calls)%nat).
  { rewrite limit_places_takes_nonneg by exact Hpos. apply firstn_length_le. }
  lia.
Qed.

End EnrichScriptProperties.

(** * The migration script *)




Lemma executemany_app (b1 b2 : list TargetRow) (table : list TargetRow) :
  executemany (b1 ++ b2) table = executemany b2 (executemany b1 table).
Proof. unfold executemany. apply fold_left_app. Qed.





(** The end of [migrate_location_data]: "insert remaining batch". *)
Lemma migrate_rows_from (batch_size : Z) (rows : list SourceRow) (m : Migration) :
  let m1 := fold_left (migrate_row batch_size) rows m in
  let m2 := match batch m1 with [] => m1 | _ :: _ => flush_batch m1 end in
  migrated m2 = (migrated m + length (batch m) + length rows)%nat /\
  concat (executed m2) =
    concat (executed m) ++ batch m ++ map insert_values rows /\
  target_table m2 =
    executemany (batch m ++ map insert_values rows) (target_table m) /\
  batch m2 = [].
Proof.
  revert m. induction rows as [|row rows IH]; intros m; cbn [fold_left map length].
  - cbv zeta. rewrite !app_nil_r. destruct (batch m) as [|r b] eqn:E.
    + rewrite E. cbn. rewrite app_nil_r. repeat split; lia.
    + cbn [flush_batch migrated executed target_table batch]. rewrite E.
      rewrite concat_app. cbn [concat]. rewrite app_nil_r.
      repeat split; lia.
  - specialize (IH (migrate_row batch_size m row)). cbv zeta in *.
    destruct IH as (Hm & Hc & Ht & Hb).
    rewrite Hm, Hc, Ht, Hb. clear Hm Hc Ht Hb.
    unfold migrate_row. cbn [batch].
    destruct (batch_size <=? Z.of_nat (length (batch m ++ [insert_values row])))%Z.
    + cbn [flush_batch migrated executed target_table batch].
      rewrite concat_app. cbn [concat app]. rewrite !app_nil_r.
      rewrite length_app. cbn [length].
      rewrite <- !app_assoc. cbn [app].
      rewrite <- (executemany_app (batch m ++ [insert_values row])).
      rewrite <- (app_assoc (batch m)). cbn [app].
      repeat split; lia.
    + cbn [migrated executed target_table batch].
      rewrite length_app. cbn [length].
      rewrite <- !app_assoc. cbn [app].
      repeat split; lia.
Qed.

Lemma migrate_location_data_spec (batch_size : Z) (rows : list SourceRow)
    (table : list TargetRow) :
  migrated (migrate_location_data batch_size rows table) = length rows /\
  concat (executed (migrate_location_data batch_size rows table)) =
    map insert_values rows /\
  target_table (migrate_location_data batch_size rows table) =
    executemany (map insert_values rows) table.
Proof.
  pose proof (migrate_rows_from batch_size rows
                {| target_table := table; executed := []; migrated := 0;
                   batch := [] |}) as H.
  cbv zeta in H. cbn [migrated executed target_table batch concat app length] in H.
  destruct H as (Hm & Hc & Ht & _).
  unfold migrate_location_data. auto.
Qed.

(** X19. The number [migrate_location_data] reports is the number of rows
    of the source, for every batch size and every target table: a row the
    target already has, which the insert skips, is counted as migrated all
    the same. *)
Theorem migration_reports_source_rows (batch_size : Z) (rows : list SourceRow)
    (table : list TargetRow) :
  migrated (migrate_location_data batch_size rows table) = length rows.
Proof. apply migrate_location_data_spec. Qed.




Lemma migrate_batches_from (batch_size : Z) (rows : list SourceRow) (m : Migration) :
  let ok := fun b : list TargetRow =>
              (1 <= length b)%nat /\
              (Z.of_nat (length b) <= Z.max 1 batch_size)%Z in
  (Z.of_nat (length (batch m)) < Z.max 1 batch_size)%Z ->
  Forall ok (executed m) ->
  let m1 := fold_left (migrate_row batch_size) rows m in
  Forall ok (executed (match batch m1 with [] => m1 | _ :: _ => flush_batch m1 end)).
Proof.
  cbv zeta. revert m. induction rows as [|row rows IH]; intros m Hlen Hall;
    cbn [fold_left].
  - destruct (batch m) as [|r b] eqn:E; [exact Hall|].
    cbn [flush_batch executed]. apply Forall_app. split; [exact Hall|].
    constructor; [|constructor]. rewrite E in *. cbn [length] in *. lia.
  - apply IH; unfold migrate_row; cbn [batch];
      destruct (Z.leb_spec batch_size
                  (Z.of_nat (length (batch m ++ [insert_values row]))))
        as [Hfull|Hroom];
      cbn [flush_batch executed batch length];
      rewrite ?length_app in *; cbn [length] in *; try lia; try exact Hall.
    apply Forall_app. split; [exact Hall|].
    constructor; [|constructor]. rewrite length_app. cbn [length]. lia.
Qed.

(** X23. Every batch handed to [executemany] has at least one row and at
    most [batch_size] rows; with a batch size of zero or less every row
    goes in a batch of its own. *)
Theorem migration_batch_sizes (batch_size : Z) (rows : list SourceRow)
    (table : list TargetRow) :
  Forall (fun b => (1 <= length b)%nat /\
                   (Z.of_nat (length b) <= Z.max 1 batch_size)%Z)
         (executed (migrate_location_data batch_size rows table)).
Proof.
  unfold migrate_location_data.
  apply (migrate_batches_from batch_size rows
           {| target_table := table; executed := []; migrated := 0; batch := [] |}).
  - cbn. lia.
  - constructor.
Qed.

Lemma run_keeps_call_budget_witness :
  let w := home_world (always joes_reply) in
  (0 <= 2)%Z /\
  (Z.of_nat (length (requests_of
      (events (snd (enrich_run (F := DecimalFloat) 2 true sample_rows w)))))
   <= Z.of_nat (length (requests_of (events w))) + 2)%Z.
Proof.
  cbv zeta.
  assert (H : (0 <= 2)%Z) by (intros E; discriminate E).
  split; [exact H|].
  apply (run_keeps_call_budget (F := DecimalFloat)). exact H.
Defined.

(** A run over the three sample rows without [--force], started on the
    hand-written file: the first row is an exact hit, the other two are
    fetched from the provider, and all three are counted as "from cache". *)
Example unforced_run_example :
  let out := enrich_run (F := DecimalFloat) 10 false sample_rows
               (home_world (always joes_reply)) in
  fst out = {| enriched_count := 0; cached_count := 3; failed_count := 0 |} /\
  requests_of (events (snd out)) =
    ["37.5000, -122.0000"%string; "38.0000, -121.0000"%string].
Proof. cbv zeta. split; reflexivity. Qed.

(** * The routes *)

Ltac step_dispatch :=
  cbn [dispatch route_path route_method endpoint path_matches
       segment_matches method_eqb andb negb].

(** X24. In the places router the route with the path parameter is
    registered before the routes for search and nearby, so it takes their
    requests: a GET for any one non-empty segment under places, "search"
    and "nearby" included, goes to [get_place], and no request at all is
    given to [search_places] or [get_nearby_places]. *)
Theorem places_routes_shadowed (m : http_method) (path : list string)
    (c : ascii) (s : string) :
  dispatch places_routes GET ["places"%string; String c s] =
    Some "get_place"%string /\
  dispatch places_routes m path <> Some "search_places"%string /\
  dispatch places_routes m path <> Some "get_nearby_places"%string.
Proof.
  unfold places_routes. split.
  - step_dispatch. rewrite String.eqb_refl. reflexivity.
  - destruct path as [|a [|b [|d rest]]]; destruct m; step_dispatch;
      rewrite ?andb_false_r; try (split; discriminate);
      destruct (String.eqb "places" a); cbn [andb]; try (split; discriminate).
    destruct (String.eqb_spec b "") as [->|Hb]; cbn; split; discriminate.
Qed.

(** X25. In the visits router the route with the path parameter is
    registered before the route for the current visit, so a GET for
    "current" goes to [get_visit], like a GET for any other non-empty
    segment, and no request at all is given to [get_current_visit]; the
    routes for ending a visit and for the visits of a place are reached. *)
Theorem visits_routes_shadowed (m : http_method) (path : list string)
    (c : ascii) (s : string) :
  dispatch visits_routes GET ["visits"%string; String c s] =
    Some "get_visit"%string /\
  dispatch visits_routes m path <> Some "get_current_visit"%string /\
  dispatch visits_routes PATCH ["visits"%string; String c s; "end"%string] =
    Some "end_visit"%string /\
  dispatch visits_routes GET ["visits"%string; "place"%string; String c s] =
    Some "get_visits_for_place"%string.
Proof.
  unfold visits_routes. split; [|split].
  - step_dispatch. rewrite String.eqb_refl. reflexivity.
  - destruct path as [|a [|b [|d [|e rest]]]]; destruct m; step_dispatch;
      rewrite ?andb_false_r; try discriminate;
      destruct (String.eqb "visits" a); cbn [andb]; try discriminate.
    + destruct (String.eqb_spec b "") as [->|Hb]; cbn; discriminate.
    + destruct (String.eqb "place" b); destruct (String.eqb d "");
        cbn [andb negb]; discriminate.
    + destruct (String.eqb b ""); destruct (String.eqb "end" d);
        cbn [andb negb]; discriminate.
  - step_dispatch. rewrite !String.eqb_refl.
    rewrite ?andb_false_r. cbn [andb negb].
    change (String.eqb (String c s) "") with false. cbn [andb negb].
    split; reflexivity.
Qed.

(** The requests the routers were written for. *)
Example shadowed_requests :
  dispatch places_routes GET ["places"; "search"]%string = Some "get_place"%string /\
  dispatch places_routes GET ["places"; "nearby"]%string = Some "get_place"%string /\
  dispatch visits_routes GET ["visits"; "current"]%string = Some "get_visit"%string.
Proof. repeat split. Qed.
